(** * Budget tracker: the ledger engine of [budget-track-telegram.py]

    A shallow embedding of the class [TelegramBudgetTracker] and the
    properties its specification states about it.

    Modelling conventions.
    - Amounts are Python floats in the source.  How the balance follows
      the transactions depends on their rounding, and is stated on
      binary64 floats, in [Binary64].  Elsewhere amounts are exact
      rationals ([Q]), and no statement there equates sums taken
      in different orders.
    - A Python [dict] keeps its keys in insertion order; it is an
      association list with in-place replacement ([Dict]).
    - [datetime.now()] is an argument [now] of every operation that reads
      the clock.  A transaction's ['date'] is the string
      [now.strftime("%Y-%m-%d %H:%M:%S")], which [strptime] reads back to
      the same date-time at second precision: the field holds that
      date-time.
    - An operation is a function from the tracker to the tracker after the
      call and either the returned value or the raised exception.
    - What the file system does during [save_data] is an argument [io].
    - The chat handlers are functions of the tracker and of the sender's
      [context.user_data] (a [session]) to both after the update and the
      replies sent; [float] and [str] of an exception are arguments. *)

From Stdlib Require Import List String Ascii Bool ZArith QArith Lia Lqa.
From Stdlib Require Import DecimalString.
From Stdlib Require PrimFloat FloatOps SpecFloat.
Import ListNotations.

Local Open Scope string_scope.

(** ** Exceptions and results *)

Inductive exn : Type :=
| OSError
| ValueError
| OverflowError
| KeyError
| TypeError
| ZeroDivisionError
| UnicodeDecodeError
| JSONDecodeError.

Inductive result (A : Type) : Type :=
| Return (a : A)
| Raise (e : exn).

Arguments Return {A} a.
Arguments Raise {A} e.

Definition bind {A B : Type} (r : result A) (k : A -> result B) : result B :=
  match r with
  | Return a => k a
  | Raise e => Raise e
  end.

Notation "x <- r ;; k" := (bind r (fun x => k))
  (at level 61, r at next level, right associativity).

(** ** Insertion-ordered dictionaries with string keys *)

Module Dict.

Definition t (V : Type) : Type := list (string * V).

Definition empty {V : Type} : t V := [].

Fixpoint get {V : Type} (k : string) (d : t V) : option V :=
  match d with
  | [] => None
  | (k', v) :: d' => if String.eqb k k' then Some v else get k d'
  end.

(** [d[k] = v]: an existing key keeps its position, a new key goes last. *)
Fixpoint set {V : Type} (k : string) (v : V) (d : t V) : t V :=
  match d with
  | [] => [(k, v)]
  | (k', v') :: d' =>
      if String.eqb k k' then (k', v) :: d' else (k', v') :: set k v d'
  end.

(** [d.get(k, default)] *)
Definition get_default {V : Type} (k : string) (default : V) (d : t V) : V :=
  match get k d with
  | Some v => v
  | None => default
  end.

Definition items {V : Type} (d : t V) : list (string * V) := d.

End Dict.

(** ** Dates and times *)

Record datetime : Type := mk_datetime {
  year : Z;
  month : Z;
  day : Z;
  hour : Z;
  minute : Z;
  second : Z
}.

Definition MINYEAR : Z := 1.
Definition MAXYEAR : Z := 9999.

Definition is_leap (y : Z) : bool :=
  ((y mod 4 =? 0) && (negb (y mod 100 =? 0) || (y mod 400 =? 0)))%Z.

Definition days_in_month (y m : Z) : Z :=
  (if m =? 2 then (if is_leap y then 29 else 28)
   else if (m =? 4) || (m =? 6) || (m =? 9) || (m =? 11) then 30
   else 31)%Z.

(** The constructor [datetime(y, m, d)]: midnight of that day, or
    [ValueError] when a field is out of range. *)
Definition datetime_new (y m d : Z) : result datetime :=
  if ((MINYEAR <=? y) && (y <=? MAXYEAR) && (1 <=? m) && (m <=? 12)
      && (1 <=? d) && (d <=? days_in_month y m))%Z
  then Return (mk_datetime y m d 0 0 0)
  else Raise ValueError.

(** [dt - timedelta(days=1)] *)
Definition minus_one_day (dt : datetime) : result datetime :=
  (if 1 <? day dt then
     Return (mk_datetime (year dt) (month dt) (day dt - 1)
               (hour dt) (minute dt) (second dt))
   else if 1 <? month dt then
     Return (mk_datetime (year dt) (month dt - 1)
               (days_in_month (year dt) (month dt - 1))
               (hour dt) (minute dt) (second dt))
   else if MINYEAR <? year dt then
     Return (mk_datetime (year dt - 1) 12 31
               (hour dt) (minute dt) (second dt))
   else Raise OverflowError)%Z.

Definition lex (c1 c2 : comparison) : comparison :=
  match c1 with
  | Eq => c2
  | _ => c1
  end.

(** Date-times compare field by field, most significant first. *)
Definition dt_compare (a b : datetime) : comparison :=
  lex (year a ?= year b)%Z
 (lex (month a ?= month b)%Z
 (lex (day a ?= day b)%Z
 (lex (hour a ?= hour b)%Z
 (lex (minute a ?= minute b)%Z
      (second a ?= second b)%Z)))).

Definition dt_leb (a b : datetime) : bool :=
  match dt_compare a b with
  | Gt => false
  | _ => true
  end.

(** A well-formed date-time, as [datetime.now()] and [strptime] give. *)
Definition valid_datetime (dt : datetime) : bool :=
  ((MINYEAR <=? year dt) && (year dt <=? MAXYEAR)
   && (1 <=? month dt) && (month dt <=? 12)
   && (1 <=? day dt) && (day dt <=? days_in_month (year dt) (month dt))
   && (0 <=? hour dt) && (hour dt <=? 23)
   && (0 <=? minute dt) && (minute dt <=? 59)
   && (0 <=? second dt) && (second dt <=? 59))%Z.

(** [strftime("%Y-%m-%d")]: the calendar day. *)
Record date : Type := mk_date {
  d_year : Z;
  d_month : Z;
  d_day : Z
}.

Definition date_of (dt : datetime) : date :=
  mk_date (year dt) (month dt) (day dt).

(** ** Comparisons on amounts *)

Definition Qltb (a b : Q) : bool := negb (Qle_bool b a).

(** [a / b] on floats raises when the divisor is zero. *)
Definition truediv (a b : Q) : result Q :=
  if Qeq_bool b 0 then Raise ZeroDivisionError else Return (a / b)%Q.

(** [int(x)]: truncation towards zero. *)
Definition int_of (x : Q) : Z := Z.quot (Qnum x) (Zpos (Qden x)).

(** [s * n] for a string [s] and an integer [n]: empty when [n <= 0]. *)
Fixpoint repeat_string (s : string) (n : nat) : string :=
  match n with
  | O => ""
  | S n' => s ++ repeat_string s n'
  end.

Definition str_mul (s : string) (n : Z) : string :=
  repeat_string s (Z.to_nat n).

Definition nl : string := String (ascii_of_nat 10) EmptyString.

(** [l[start:]] for a list [l] and an integer [start]: a negative [start]
    counts from the end, and the bounds are clipped to the list. *)
Definition slice_from {A : Type} (start : Z) (l : list A) : list A :=
  let n := Z.of_nat (List.length l) in
  let s := (if start <? 0 then Z.max (start + n) 0 else Z.min start n)%Z in
  skipn (Z.to_nat s) l.

(** ** The persisted document *)

Record transaction : Type := mk_transaction {
  t_id : Z;
  t_date : datetime;
  t_amount : Q;
  t_category : string;
  t_type : string;
  t_description : string
}.

Record budget_info : Type := mk_budget_info {
  b_amount : Q;
  b_set_date : date
}.

Record goal : Type := mk_goal {
  g_id : Z;
  g_name : string;
  g_target_amount : Q;
  g_current_amount : Q;
  g_target_date : string;
  g_created_date : date
}.

Record account : Type := mk_account {
  transactions : list transaction;
  budgets : Dict.t budget_info;
  savings_goals : list goal;
  total_savings : Q
}.

Record document : Type := mk_document {
  users : Dict.t account
}.

(** ** The data file *)

(** A JSON value, for file contents that are not a dumped document. *)
#[warnings="-register-all"]
Inductive json : Type :=
| JNull
| JBool (b : bool)
| JNum (q : Q)
| JStr (s : string)
| JArr (l : list json)
| JObj (l : list (string * json)).

(** What the bytes of the data file are to [json.load]. *)
Inductive contents : Type :=
| Dumped (d : document)   (* the text a completed [json.dump(d, f)] leaves *)
| Foreign (v : json)      (* any other well-formed JSON text *)
| NotJson                 (* text that is not JSON, e.g. empty or cut short *)
| NotText.                (* bytes that do not decode to text *)

Inductive file : Type :=
| Absent
| Present (c : contents).

(** What the file system does when [save_data] runs. *)
Inductive io : Type :=
| WriteOk            (* the whole document is written *)
| OpenDenied         (* [open(..., 'w')] raises, e.g. permission denied *)
| WriteInterrupted.  (* the file is opened, so truncated, then a write
                        raises, e.g. disk full *)

Record tracker : Type := mk_tracker {
  data : document;
  data_file : file
}.

(** ** The engine *)

Section Engine.

(** Text formatting done by the Python runtime. *)
Variable fmt2 : Q -> string.               (* [f"{x:.2f}"] *)
Variable fmt1 : Q -> string.               (* [f"{x:.1f}"] *)
Variable capitalize : string -> string.    (* [str.capitalize] *)
Variable title : string -> string.         (* [str.title] *)
Variable strftime : datetime -> string.    (* ["%Y-%m-%d %H:%M:%S"] *)

Definition initialize_data : document :=
  {| users := Dict.empty |}.

(** What [self.data] is after [load_data]: a document, or whatever other
    value the JSON text denotes. *)
Inductive loaded : Type :=
| Doc (d : document)
| Other (v : json).

(** [json.load(f)] on a file that exists. *)
Definition json_load (c : contents) : result loaded :=
  match c with
  | Dumped d => Return (Doc d)
  | Foreign v => Return (Other v)
  | NotJson => Raise JSONDecodeError
  | NotText => Raise UnicodeDecodeError
  end.

Definition load_data (f : file) : result loaded :=
  match f with
  | Present c =>
      match json_load c with
      | Return v => Return v
      | Raise JSONDecodeError | Raise KeyError =>
          Return (Doc initialize_data)
      | Raise e => Raise e
      end
  | Absent => Return (Doc initialize_data)
  end.

(** [self.data['users']], the first thing every engine method evaluates. *)
Definition subscript_users (v : loaded) : result (Dict.t account) :=
  match v with
  | Doc d => Return (users d)
  | Other (JObj _) => Raise KeyError
  | Other _ => Raise TypeError
  end.

Definition save_data (o : io) (t : tracker) : tracker * result unit :=
  match o with
  | WriteOk =>
      ({| data := data t; data_file := Present (Dumped (data t)) |},
       Return tt)
  | OpenDenied => (t, Raise OSError)
  | WriteInterrupted =>
      ({| data := data t; data_file := Present NotJson |}, Raise OSError)
  end.

Definition new_account : account :=
  {| transactions := [];
     budgets := Dict.empty;
     savings_goals := [];
     total_savings := 0 |}.

(** [self.data['users'][user_id] = a] *)
Definition store_user (user_id : string) (a : account) (t : tracker)
  : tracker :=
  {| data := {| users := Dict.set user_id a (users (data t)) |};
     data_file := data_file t |}.

(** The account handed back is the one in the document: the callers
    below write their changes to it back with [store_user]. *)
Definition get_user_data (user_id : string) (t : tracker)
  : tracker * account :=
  match Dict.get user_id (users (data t)) with
  | Some a => (t, a)
  | None => (store_user user_id new_account t, new_account)
  end.

Definition add_transaction (user_id : string) (amount : Q)
    (category transaction_type description : string)
    (now : datetime) (o : io) (t : tracker) : tracker * result string :=
  let (t1, user_data) := get_user_data user_id t in
  let transaction :=
    {| t_id := Z.of_nat (List.length (transactions user_data)) + 1;
       t_date := now;
       t_amount := amount;
       t_category := category;
       t_type := transaction_type;
       t_description := description |} in
  let total :=
    if String.eqb transaction_type "income"
    then (total_savings user_data + amount)%Q
    else if String.eqb transaction_type "expense"
    then (total_savings user_data - amount)%Q
    else total_savings user_data in
  let user_data' :=
    {| transactions := transactions user_data ++ [transaction];
       budgets := budgets user_data;
       savings_goals := savings_goals user_data;
       total_savings := total |} in
  let (t2, saved) := save_data o (store_user user_id user_data' t1) in
  (t2,
   _ <- saved ;;
   Return ("✅ " ++ capitalize transaction_type ++ " of $" ++ fmt2 amount
           ++ " added successfully!")).

Definition set_budget (user_id category : string) (amount : Q)
    (now : datetime) (o : io) (t : tracker) : tracker * result string :=
  let (t1, user_data) := get_user_data user_id t in
  let user_data' :=
    {| transactions := transactions user_data;
       budgets :=
         Dict.set category
           {| b_amount := amount; b_set_date := date_of now |}
           (budgets user_data);
       savings_goals := savings_goals user_data;
       total_savings := total_savings user_data |} in
  let (t2, saved) := save_data o (store_user user_id user_data' t1) in
  (t2,
   _ <- saved ;;
   Return ("✅ Budget of $" ++ fmt2 amount ++ " set for " ++ category)).

Definition add_savings_goal (user_id name : string) (target_amount : Q)
    (target_date : string) (now : datetime) (o : io) (t : tracker)
  : tracker * result string :=
  let (t1, user_data) := get_user_data user_id t in
  let goal :=
    {| g_id := Z.of_nat (List.length (savings_goals user_data)) + 1;
       g_name := name;
       g_target_amount := target_amount;
       g_current_amount := 0;
       g_target_date := target_date;
       g_created_date := date_of now |} in
  let user_data' :=
    {| transactions := transactions user_data;
       budgets := budgets user_data;
       savings_goals := savings_goals user_data ++ [goal];
       total_savings := total_savings user_data |} in
  let (t2, saved) := save_data o (store_user user_id user_data' t1) in
  (t2,
   _ <- saved ;;
   Return ("✅ Savings goal '" ++ name ++ "' added successfully!")).

(** *** Summaries *)

(** The inclusive range of date-times a period stands for. *)
Definition period_range (period : string) (now : datetime)
  : result (datetime * datetime) :=
  if String.eqb period "current_month" then
    start_date <- datetime_new (year now) (month now) 1 ;;
    end_date <-
      (if (month now <? 12)%Z
       then first <- datetime_new (year now) (month now + 1) 1 ;;
            minus_one_day first
       else first <- datetime_new (year now + 1) 1 1 ;;
            minus_one_day first) ;;
    Return (start_date, end_date)
  else if String.eqb period "last_month" then
    let last_month := (if 1 <? month now then month now - 1 else 12)%Z in
    let year' := (if 1 <? month now then year now else year now - 1)%Z in
    start_date <- datetime_new year' last_month 1 ;;
    first <- datetime_new (year now) (month now) 1 ;;
    end_date <- minus_one_day first ;;
    Return (start_date, end_date)
  else
    start_date <- datetime_new 2000 1 1 ;;
    end_date <- datetime_new 2100 1 1 ;;
    Return (start_date, end_date).

Definition in_range (range : datetime * datetime) (t : transaction) : bool :=
  dt_leb (fst range) (t_date t) && dt_leb (t_date t) (snd range).

Definition period_transactions (range : datetime * datetime)
    (txs : list transaction) : list transaction :=
  filter (in_range range) txs.

(** [sum(t['amount'] for t in txs if t['type'] == ty)] *)
Definition sum_amounts (ty : string) (txs : list transaction) : Q :=
  fold_left Qplus
    (map t_amount (filter (fun t => String.eqb (t_type t) ty) txs)) 0%Q.

Definition expenses_by_category (txs : list transaction) : Dict.t Q :=
  fold_left
    (fun acc t =>
       if String.eqb (t_type t) "expense"
       then Dict.set (t_category t)
              (Dict.get_default (t_category t) 0 acc + t_amount t)%Q acc
       else acc)
    txs Dict.empty.

Definition alert_text (category : string) (spent budget : Q) : string :=
  "⚠️ " ++ category ++ ": $" ++ fmt2 spent ++ " spent (budget: $"
  ++ fmt2 budget ++ ")".

Definition budget_alerts (by_category : Dict.t Q)
    (bs : Dict.t budget_info) : list string :=
  fold_left
    (fun (alerts : list string) item =>
       let category := fst item in
       let spent := Dict.get_default category 0%Q by_category in
       let budget := b_amount (snd item) in
       if Qltb budget spent
       then (alerts ++ [alert_text category spent budget])%list
       else alerts)
    (Dict.items bs) [].

(** A budgeted category whose spending is strictly above its budget, and
    the alert for it. *)
Definition over_budget (by_category : Dict.t Q)
    (item : string * budget_info) : bool :=
  Qltb (b_amount (snd item)) (Dict.get_default (fst item) 0 by_category).

Definition alert_of (by_category : Dict.t Q)
    (item : string * budget_info) : string :=
  alert_text (fst item)
    (Dict.get_default (fst item) 0 by_category) (b_amount (snd item)).

Record summary : Type := mk_summary {
  s_period : string;
  s_total_income : Q;
  s_total_expenses : Q;
  s_net_savings : Q;
  s_expenses_by_category : Dict.t Q;
  s_budget_alerts : list string;
  s_total_savings : Q
}.

Definition get_financial_summary (user_id period : string)
    (now : datetime) (t : tracker) : tracker * result summary :=
  let (t1, user_data) := get_user_data user_id t in
  (t1,
   range <- period_range period now ;;
   let txs := period_transactions range (transactions user_data) in
   let total_income := sum_amounts "income" txs in
   let total_expenses := sum_amounts "expense" txs in
   let by_category := expenses_by_category txs in
   Return {| s_period := period;
             s_total_income := total_income;
             s_total_expenses := total_expenses;
             s_net_savings := (total_income - total_expenses)%Q;
             s_expenses_by_category := by_category;
             s_budget_alerts :=
               budget_alerts by_category (budgets user_data);
             s_total_savings := total_savings user_data |}).

(** *** Listings *)

Definition transaction_text (t : transaction) : string :=
  let emoji := if String.eqb (t_type t) "income" then "💰" else "💸" in
  emoji ++ " " ++ substring 0 10 (strftime (t_date t)) ++ nl
  ++ "   " ++ title (t_type t) ++ ": " ++ t_category t ++ nl
  ++ "   Amount: $" ++ fmt2 (t_amount t) ++ nl
  ++ (if String.eqb (t_description t) "" then ""
      else "   Note: " ++ t_description t ++ nl)
  ++ nl.

Definition view_transactions (user_id : string) (limit : Z) (t : tracker)
  : tracker * string :=
  let (t1, user_data) := get_user_data user_id t in
  let transactions := slice_from (- limit) (transactions user_data) in
  (t1,
   match transactions with
   | [] => "No transactions found."
   | _ =>
       fold_left (fun message t => message ++ transaction_text t)
         (rev transactions) ("📋 Recent Transactions:" ++ nl ++ nl)
   end).

Definition _create_progress_bar (progress : Q) (length : Z) : string :=
  let filled := int_of (inject_Z length * progress / 100)%Q in
  let bar := str_mul "█" filled ++ str_mul "░" (length - filled) in
  bar ++ " " ++ fmt1 progress ++ "%".

(** The percentage shown for a goal. *)
Definition progress_of (g : goal) : result Q :=
  if Qltb 0 (g_target_amount g)
  then q <- truediv (g_current_amount g) (g_target_amount g) ;;
       Return (q * 100)%Q
  else Return 0%Q.

Definition goal_text (g : goal) (progress : Q) : string :=
  "🏁 " ++ g_name g ++ nl
  ++ "   Target: $" ++ fmt2 (g_target_amount g) ++ nl
  ++ "   Saved: $" ++ fmt2 (g_current_amount g) ++ nl
  ++ "   Progress: " ++ _create_progress_bar progress 10 ++ nl
  ++ "   Due: " ++ g_target_date g ++ nl ++ nl.

Definition view_savings_goals (user_id : string) (t : tracker)
  : tracker * result string :=
  let (t1, user_data) := get_user_data user_id t in
  let goals := savings_goals user_data in
  (t1,
   match goals with
   | [] => Return "No savings goals set."
   | _ =>
       fold_left
         (fun message g =>
            m <- message ;;
            progress <- progress_of g ;;
            Return (m ++ goal_text g progress))
         goals (Return ("🎯 Savings Goals:" ++ nl ++ nl))
   end).

(** *** The calls the front end makes *)

Inductive mutation : Type :=
| AddTransaction (amount : Q) (category transaction_type description : string)
| SetBudget (category : string) (amount : Q)
| AddSavingsGoal (name : string) (target_amount : Q) (target_date : string).

Definition perform (m : mutation) (user_id : string) (now : datetime)
    (o : io) (t : tracker) : tracker * result string :=
  match m with
  | AddTransaction amount category transaction_type description =>
      add_transaction user_id amount category transaction_type description
        now o t
  | SetBudget category amount => set_budget user_id category amount now o t
  | AddSavingsGoal name target_amount target_date =>
      add_savings_goal user_id name target_amount target_date now o t
  end.

Inductive query : Type :=
| Summary (period : string)
| Transactions (limit : Z)
| Goals.

(** The tracker a read-only method leaves behind. *)
Definition ask (q : query) (user_id : string) (now : datetime) (t : tracker)
  : tracker :=
  match q with
  | Summary period => fst (get_financial_summary user_id period now t)
  | Transactions limit => fst (view_transactions user_id limit t)
  | Goals => fst (view_savings_goals user_id t)
  end.

Inductive call : Type :=
| Mutate (m : mutation) (o : io)
| Ask (q : query).

Definition after (c : call) (user_id : string) (now : datetime) (t : tracker)
  : tracker :=
  match c with
  | Mutate m o => fst (perform m user_id now o t)
  | Ask q => ask q user_id now t
  end.

Definition read_only (c : call) : bool :=
  match c with
  | Mutate _ _ => false
  | Ask _ => true
  end.

(** One [add_transaction] call: its arguments, the clock and the disk. *)
Record entry : Type := mk_entry {
  e_amount : Q;
  e_category : string;
  e_type : string;
  e_description : string;
  e_now : datetime;
  e_io : io
}.

Definition record_entry (user_id : string) (t : tracker) (e : entry)
  : tracker :=
  fst (add_transaction user_id (e_amount e) (e_category e) (e_type e)
         (e_description e) (e_now e) (e_io e) t).

Definition record_all (user_id : string) (es : list entry) (t : tracker)
  : tracker :=
  fold_left (record_entry user_id) es t.

End Engine.

(** ** Reading an account without creating it *)

Definition account_of (user_id : string) (t : tracker) : option account :=
  Dict.get user_id (users (data t)).

Definition recorded (user_id : string) (t : tracker) : list transaction :=
  match account_of user_id t with
  | Some a => transactions a
  | None => []
  end.

Definition balance (user_id : string) (t : tracker) : Q :=
  match account_of user_id t with
  | Some a => total_savings a
  | None => 0
  end.

Definition budgets_of (user_id : string) (t : tracker) : Dict.t budget_info :=
  match account_of user_id t with
  | Some a => budgets a
  | None => Dict.empty
  end.

Definition goals_of (user_id : string) (t : tracker) : list goal :=
  match account_of user_id t with
  | Some a => savings_goals a
  | None => []
  end.

(** ** Listings, as the specification writes them *)

(** The texts of a listing, one after the other. *)
Fixpoint join_text (l : list string) : string :=
  match l with
  | [] => ""
  | s :: l' => s ++ join_text l'
  end.

(** The progress of a goal in percent: saved over target times 100 for a
    positive target, 0 otherwise. *)
Definition percentage (g : goal) : Q :=
  if Qltb 0 (g_target_amount g)
  then g_current_amount g / g_target_amount g * 100
  else 0.

(** ** The sentinels of the all-time period *)

Definition sentinel_start : datetime := mk_datetime 2000 1 1 0 0 0.
Definition sentinel_end : datetime := mk_datetime 2100 1 1 0 0 0.

Definition in_sentinels (t : transaction) : bool :=
  dt_leb sentinel_start (t_date t) && dt_leb (t_date t) sentinel_end.

(** The month before the one [now] is in. *)
Definition previous_month (now : datetime) : Z * Z :=
  (if 1 <? month now then (year now, month now - 1)
   else (year now - 1, 12))%Z.

Definition in_month (ym : Z * Z) (d : datetime) : bool :=
  ((year d =? fst ym) && (month d =? snd ym))%Z.
(** ** Sample runs *)

(** A tracker started with no data file, and one whose empty document has
    been saved. *)
Definition empty_tracker : tracker :=
  {| data := initialize_data; data_file := Absent |}.

Definition saved_tracker : tracker :=
  {| data := initialize_data; data_file := Present (Dumped initialize_data) |}.

Definition mid_month : datetime := mk_datetime 2024 1 15 10 30 0.
Definition last_day_noon : datetime := mk_datetime 2024 1 31 12 0 0.
Definition year_2100 : datetime := mk_datetime 2100 6 15 12 0 0.

(** Stand-ins for the formatting of the runtime, where a run needs one. *)
Definition no_fmt : Q -> string := fun _ => "".
Definition as_is : string -> string := fun s => s.
Definition no_date : datetime -> string := fun _ => "".

(** Income 1000 (Salary), expenses 200 and 50 (Food), then budget Food=100
    and the summary of the current month, all at the time [now]. *)
Definition scenario (fmt2 : Q -> string) (capitalize : string -> string)
    (now : datetime) : tracker * result summary :=
  let t1 := fst (add_transaction fmt2 capitalize "u1" 1000 "Salary" "income"
                   "" now WriteOk empty_tracker) in
  let t2 := fst (add_transaction fmt2 capitalize "u1" 200 "Food" "expense"
                   "" now WriteOk t1) in
  let t3 := fst (add_transaction fmt2 capitalize "u1" 50 "Food" "expense"
                   "" now WriteOk t2) in
  let t4 := fst (set_budget fmt2 "u1" "Food" 100 now WriteOk t3) in
  get_financial_summary fmt2 "u1" "current_month" now t4.

Definition five_transactions : tracker :=
  record_all no_fmt as_is "u1"
    [ mk_entry 1 "Salary" "income" "" mid_month WriteOk;
      mk_entry 2 "Food" "expense" "" mid_month WriteOk;
      mk_entry 3 "Food" "expense" "" mid_month WriteOk;
      mk_entry 4 "Gifts" "income" "" mid_month WriteOk;
      mk_entry 5 "Other" "expense" "" mid_month WriteOk ]
    empty_tracker.

Definition car_goal : goal :=
  {| g_id := 1;
     g_name := "Car";
     g_target_amount := 5000;
     g_current_amount := 0;
     g_target_date := "2025-12-31";
     g_created_date := date_of mid_month |}.

(** ** Runs of engine calls *)

(** One call of an engine method, by some user at some time. *)
Record step : Type := mk_step {
  s_call : call;
  s_user : string;
  s_now : datetime
}.

Section Runs.

Variable fmt2 : Q -> string.
Variable fmt1 : Q -> string.
Variable capitalize : string -> string.
Variable title : string -> string.
Variable strftime : datetime -> string.

Definition run_step (t : tracker) (s : step) : tracker :=
  after fmt2 fmt1 capitalize title strftime (s_call s) (s_user s) (s_now s) t.

Definition run (steps : list step) (t : tracker) : tracker :=
  fold_left run_step steps t.

End Runs.

(** ** The change a call makes to the account it works on *)

Definition effect (c : call) (now : datetime) (a : account) : account :=
  match c with
  | Mutate (AddTransaction amount category transaction_type description) _ =>
      {| transactions :=
           transactions a ++
           [ {| t_id := Z.of_nat (List.length (transactions a)) + 1;
                t_date := now;
                t_amount := amount;
                t_category := category;
                t_type := transaction_type;
                t_description := description |} ];
         budgets := budgets a;
         savings_goals := savings_goals a;
         total_savings :=
           if String.eqb transaction_type "income"
           then total_savings a + amount
           else if String.eqb transaction_type "expense"
           then total_savings a - amount
           else total_savings a |}
  | Mutate (SetBudget category amount) _ =>
      {| transactions := transactions a;
         budgets :=
           Dict.set category
             {| b_amount := amount; b_set_date := date_of now |}
             (budgets a);
         savings_goals := savings_goals a;
         total_savings := total_savings a |}
  | Mutate (AddSavingsGoal name target_amount target_date) _ =>
      {| transactions := transactions a;
         budgets := budgets a;
         savings_goals :=
           savings_goals a ++
           [ {| g_id := Z.of_nat (List.length (savings_goals a)) + 1;
                g_name := name;
                g_target_amount := target_amount;
                g_current_amount := 0;
                g_target_date := target_date;
                g_created_date := date_of now |} ];
         total_savings := total_savings a |}
  | Ask _ => a
  end.

(** ** What the engine keeps true of an account *)

(** The ids 1, 2, ..., n, in this order. *)
Definition ids_from_one (ids : list Z) : Prop :=
  ids = map Z.of_nat (seq 1 (List.length ids)).

Record account_ok (a : account) : Prop := mk_account_ok {
  ok_transaction_ids : ids_from_one (map t_id (transactions a));
  ok_goal_ids : ids_from_one (map g_id (savings_goals a));
  ok_goals_unfunded :
    Forall (fun g => g_current_amount g = 0) (savings_goals a);
  ok_budget_keys : NoDup (map fst (budgets a))
}.

Definition consistent (t : tracker) : Prop :=
  NoDup (map fst (users (data t)))
  /\ forall user_id a, account_of user_id t = Some a -> account_ok a.

(** The account a method works on: the user's, or a new one. *)
Definition current (user_id : string) (t : tracker) : account :=
  match account_of user_id t with
  | Some a => a
  | None => new_account
  end.

(** The loop of [get_financial_summary] over the transactions of the
    period, from any dictionary built so far. *)
Definition by_category_from (acc : Dict.t Q) (txs : list transaction)
  : Dict.t Q :=
  fold_left
    (fun acc t =>
       if String.eqb (t_type t) "expense"
       then Dict.set (t_category t)
              (Dict.get_default (t_category t) 0 acc + t_amount t)%Q acc
       else acc)
    txs acc.

(** The expense amounts of one category, oldest first. *)
Definition category_expenses (category : string) (txs : list transaction)
  : list Q :=
  map t_amount
    (filter
       (fun t => String.eqb (t_type t) "expense"
                 && String.eqb (t_category t) category)
       txs).

(** The tracker after a run of calls on one started with no data file. *)
Definition reached (fmt2 fmt1 : Q -> string)
    (capitalize title : string -> string) (strftime : datetime -> string)
    (steps : list step) : tracker :=
  run fmt2 fmt1 capitalize title strftime steps empty_tracker.

(** What a step adds to the log of a user: the fields of one transaction
    when it is an [add_transaction] by that user, nothing otherwise. *)
Definition recorded_by (user_id : string) (s : step)
  : list (datetime * Q * string * string * string) :=
  match s_call s with
  | Mutate (AddTransaction amount category transaction_type description) _ =>
      if String.eqb (s_user s) user_id
      then [(s_now s, amount, category, transaction_type, description)]
      else []
  | _ => []
  end.

(** What a step does to the balance of a user: an [add_transaction] by
    that user adds an income amount or subtracts an expense amount, with
    one operation; any other step leaves the balance. *)
Definition moved_by (user_id : string) (total : Q) (s : step) : Q :=
  match s_call s with
  | Mutate (AddTransaction amount _ transaction_type _) _ =>
      if String.eqb (s_user s) user_id
      then if String.eqb transaction_type "income" then total + amount
           else if String.eqb transaction_type "expense" then total - amount
           else total
      else total
  | _ => total
  end.

Definition fields (x : transaction)
  : datetime * Q * string * string * string :=
  (t_date x, t_amount x, t_category x, t_type x, t_description x).

(** ** The chat front end *)

(** [s.startswith(prefix)] *)
Definition startswith (s prefix : string) : bool := String.prefix prefix s.

(** [sub in s] *)
Fixpoint contains (s sub : string) : bool :=
  String.prefix sub s
  || match s with
     | EmptyString => false
     | String _ s' => contains s' sub
     end.

(** [s.replace(old, new)]: the occurrences of [old] are found from the
    left and do not overlap; [skip] counts the characters of an occurrence
    still to pass over. *)
Fixpoint replace_from (old new : string) (skip : nat) (s : string) : string :=
  match s with
  | EmptyString =>
      match skip, old with
      | O, EmptyString => new
      | _, _ => EmptyString
      end
  | String c s' =>
      match skip with
      | S k => replace_from old new k s'
      | O =>
          if String.prefix old s
          then new ++ match old with
                      | EmptyString => String c (replace_from old new 0 s')
                      | String _ old' =>
                          replace_from old new (String.length old') s'
                      end
          else String c (replace_from old new 0 s')
      end
  end.

Definition replace (s old new : string) : string := replace_from old new 0 s.

(** [str(n)] for an integer. *)
Definition string_of_Z (n : Z) : string := NilZero.string_of_int (Z.to_int n).

(** [self.categories] *)
Definition categories : Dict.t (list string) :=
  [ ("income",
     ["Salary"; "Freelance"; "Investments"; "Gifts"; "Other Income"]);
    ("expense",
     ["Food"; "Transportation"; "Housing"; "Entertainment"; "Healthcare";
      "Utilities"; "Shopping"; "Education"; "Other"]) ].

Definition categories_of (kind : string) : list string :=
  Dict.get_default kind [] categories.

(** An inline button, and a message sent or edited with its keyboard. *)
Record button : Type := mk_button {
  k_label : string;
  k_callback_data : string
}.

Record reply : Type := mk_reply {
  r_text : string;
  r_keyboard : list button
}.

Definition say (s : string) : reply := {| r_text := s; r_keyboard := [] |}.

(** [context.user_data]: what the bot is waiting for from the user.  A key
    that is absent is [None]. *)
Record goal_draft : Type := mk_goal_draft {
  draft_step : string;
  draft_name : option string;
  draft_target_amount : option Q
}.

Record session : Type := mk_session {
  pending_income : option string;
  pending_expense : option string;
  pending_budget : option string;
  pending_goal : option goal_draft
}.

Definition no_session : session := mk_session None None None None.

(** [keyboard] of [add_income], [add_expense] and [set_budget]. *)
Definition category_keyboard (kind prefix : string) : list button :=
  map (fun category =>
         {| k_label := category; k_callback_data := prefix ++ category |})
    (categories_of kind).

Definition add_income : reply :=
  {| r_text := "💵 Choose income category:";
     r_keyboard := category_keyboard "income" "income_" |}.

Definition add_expense : reply :=
  {| r_text := "💸 Choose expense category:";
     r_keyboard := category_keyboard "expense" "expense_" |}.

(** The handler of the command [/set_budget]. *)
Definition set_budget_command : reply :=
  {| r_text := "📊 Choose category to set budget:";
     r_keyboard := category_keyboard "expense" "budget_" |}.

Definition button_handler (user_id data : string) (t : tracker)
    (s : session) : tracker * session * list reply :=
  if startswith data "income_" then
    let category := replace data "income_" "" in
    (t,
     {| pending_income := Some category;
        pending_expense := pending_expense s;
        pending_budget := pending_budget s;
        pending_goal := pending_goal s |},
     [say ("💵 Adding " ++ category ++ " income" ++ nl ++ nl
           ++ "Please enter the amount:")])
  else if startswith data "expense_" then
    let category := replace data "expense_" "" in
    (t,
     {| pending_income := pending_income s;
        pending_expense := Some category;
        pending_budget := pending_budget s;
        pending_goal := pending_goal s |},
     [say ("💸 Adding " ++ category ++ " expense" ++ nl ++ nl
           ++ "Please enter the amount:")])
  else if startswith data "budget_" then
    let category := replace data "budget_" "" in
    (t,
     {| pending_income := pending_income s;
        pending_expense := pending_expense s;
        pending_budget := Some category;
        pending_goal := pending_goal s |},
     [say ("📊 Setting budget for " ++ category ++ nl ++ nl
           ++ "Please enter the budget amount:")])
  else if String.eqb data "add_goal" then
    (t,
     {| pending_income := pending_income s;
        pending_expense := pending_expense s;
        pending_budget := pending_budget s;
        pending_goal :=
          Some {| draft_step := "name";
                  draft_name := None;
                  draft_target_amount := None |} |},
     [say ("🎯 Let's add a new savings goal!" ++ nl ++ nl
           ++ "What would you like to call this goal?")])
  else if String.eqb data "update_goal" then
    let (t1, user_data) := get_user_data user_id t in
    match savings_goals user_data with
    | [] => (t1, s, [say "No savings goals found. Add one first!"])
    | goals =>
        (t1, s,
         [ {| r_text := "Select goal to update:";
              r_keyboard :=
                map (fun g =>
                       {| k_label := g_name g;
                          k_callback_data :=
                            "update_" ++ string_of_Z (g_id g) |})
                  goals |} ])
    end
  else (t, s, []).

Section FrontEnd.

Variable fmt2 : Q -> string.
Variable fmt1 : Q -> string.
Variable capitalize : string -> string.
Variable title : string -> string.
Variable strftime : datetime -> string.

(** [float(text)] for the texts that are a finite number, [None] where it
    raises [ValueError]; and [str(e)] for an exception. *)
Variable float_of : string -> option Q.
Variable str_exn : exn -> string.

Definition invalid_number : reply := say "❌ Please enter a valid number!".

(** The two [except] clauses of [handle_message]: [ValueError] and its
    subclasses, then any other exception. *)
Definition on_exception (e : exn) : reply :=
  match e with
  | ValueError | UnicodeDecodeError | JSONDecodeError => invalid_number
  | _ => say ("❌ An error occurred: " ++ str_exn e)
  end.

Definition handle_message (user_id text : string) (now : datetime)
    (o : io) (t : tracker) (s : session) : tracker * session * list reply :=
  match pending_income s with
  | Some category =>
      match float_of text with
      | None => (t, s, [invalid_number])
      | Some amount =>
          let (t', r) :=
            add_transaction fmt2 capitalize user_id amount category "income"
              "" now o t in
          match r with
          | Return result =>
              (t',
               {| pending_income := None;
                  pending_expense := pending_expense s;
                  pending_budget := pending_budget s;
                  pending_goal := pending_goal s |},
               [say result])
          | Raise e => (t', s, [on_exception e])
          end
      end
  | None =>
  match pending_expense s with
  | Some category =>
      match float_of text with
      | None => (t, s, [invalid_number])
      | Some amount =>
          let (t', r) :=
            add_transaction fmt2 capitalize user_id amount category "expense"
              "" now o t in
          match r with
          | Return result =>
              (t',
               {| pending_income := pending_income s;
                  pending_expense := None;
                  pending_budget := pending_budget s;
                  pending_goal := pending_goal s |},
               [say result])
          | Raise e => (t', s, [on_exception e])
          end
      end
  | None =>
  match pending_budget s with
  | Some category =>
      match float_of text with
      | None => (t, s, [invalid_number])
      | Some amount =>
          let (t', r) := set_budget fmt2 user_id category amount now o t in
          match r with
          | Return result =>
              (t',
               {| pending_income := pending_income s;
                  pending_expense := pending_expense s;
                  pending_budget := None;
                  pending_goal := pending_goal s |},
               [say result])
          | Raise e => (t', s, [on_exception e])
          end
      end
  | None =>
  match pending_goal s with
  | Some draft =>
      if String.eqb (draft_step draft) "name" then
        (t,
         {| pending_income := pending_income s;
            pending_expense := pending_expense s;
            pending_budget := pending_budget s;
            pending_goal :=
              Some {| draft_step := "amount";
                      draft_name := Some text;
                      draft_target_amount := draft_target_amount draft |} |},
         [say "Great! Now enter the target amount:"])
      else if String.eqb (draft_step draft) "amount" then
        match float_of text with
        | None => (t, s, [invalid_number])
        | Some amount =>
            (t,
             {| pending_income := pending_income s;
                pending_expense := pending_expense s;
                pending_budget := pending_budget s;
                pending_goal :=
                  Some {| draft_step := "date";
                          draft_name := draft_name draft;
                          draft_target_amount := Some amount |} |},
             [say "Perfect! Now enter the target date (YYYY-MM-DD):"])
        end
      else if String.eqb (draft_step draft) "date" then
        match draft_name draft, draft_target_amount draft with
        | Some name, Some target_amount =>
            let (t', r) :=
              add_savings_goal user_id name target_amount text now o t in
            match r with
            | Return result =>
                (t',
                 {| pending_income := pending_income s;
                    pending_expense := pending_expense s;
                    pending_budget := pending_budget s;
                    pending_goal := None |},
                 [say result])
            | Raise e => (t', s, [on_exception e])
            end
        | _, _ => (t, s, [on_exception KeyError])
        end
      else (t, s, [])
  | None => (t, s, [])
  end end end end.

Definition show_summary (user_id : string) (now : datetime) (t : tracker)
  : tracker * result (list reply) :=
  let (t1, r) := get_financial_summary fmt2 user_id "current_month" now t in
  (t1,
   summary <- r ;;
   let message :=
     nl ++ "📊 *Financial Summary* ("
     ++ title (replace (s_period summary) "_" " ") ++ ")" ++ nl ++ nl
     ++ "*Income & Expenses:*" ++ nl
     ++ "💰 Total Income: $" ++ fmt2 (s_total_income summary) ++ nl
     ++ "💸 Total Expenses: $" ++ fmt2 (s_total_expenses summary) ++ nl
     ++ "📈 Net Savings: $" ++ fmt2 (s_net_savings summary) ++ nl
     ++ "💼 Total Savings: $" ++ fmt2 (s_total_savings summary) ++ nl
     ++ "    " in
   let message :=
     match s_expenses_by_category summary with
     | [] => message
     | items =>
         fold_left
           (fun message item =>
              message ++ "  • " ++ fst item ++ ": $" ++ fmt2 (snd item) ++ nl)
           items (message ++ nl ++ "*Expenses by Category:*" ++ nl)
     end in
   let message :=
     match s_budget_alerts summary with
     | [] => message
     | alerts =>
         fold_left (fun message alert => message ++ "  " ++ alert ++ nl)
           alerts (message ++ nl ++ "*🚨 Budget Alerts:*" ++ nl)
     end in
   Return [say message]).

Definition show_transactions (user_id : string) (t : tracker)
  : tracker * list reply :=
  let (t1, message) := view_transactions fmt2 title strftime user_id 10 t in
  (t1, [say message]).

Definition show_goals (user_id : string) (t : tracker)
  : tracker * result (list reply) :=
  let (t1, r) := view_savings_goals fmt2 fmt1 user_id t in
  (t1,
   message <- r ;;
   Return [ {| r_text := message;
               r_keyboard :=
                 [ {| k_label := "➕ Add New Goal";
                      k_callback_data := "add_goal" |};
                   {| k_label := "📈 Update Goal Progress";
                      k_callback_data := "update_goal" |} ] |} ]).

End FrontEnd.

(** ** Conversations *)

(** What reaches the bot: a command, a pressed button or a typed text. *)
Inductive update : Type :=
| Start
| Help
| AddIncome
| AddExpense
| SetBudgetCommand
| ShowSummary
| ShowTransactions
| ShowGoals
| Pressed (data : string)
| Typed (text : string).

(** An update with its sender, the clock and what the disk does. *)
Record event : Type := mk_event {
  ev_update : update;
  ev_user : string;
  ev_now : datetime;
  ev_io : io
}.

(** The one tracker of the process and the [user_data] of every user. *)
Record chat : Type := mk_chat {
  c_tracker : tracker;
  c_sessions : Dict.t session
}.

Definition new_chat : chat :=
  {| c_tracker := empty_tracker; c_sessions := Dict.empty |}.

Section Chat.

Variable fmt2 : Q -> string.
Variable fmt1 : Q -> string.
Variable capitalize : string -> string.
Variable title : string -> string.
Variable strftime : datetime -> string.
Variable float_of : string -> option Q.
Variable str_exn : exn -> string.

(** The state the handler of an update leaves; the replies are dropped. *)
Definition chat_step (c : chat) (e : event) : chat :=
  let user_id := ev_user e in
  let t := c_tracker c in
  let s := Dict.get_default user_id no_session (c_sessions c) in
  match ev_update e with
  | Start | Help | AddIncome | AddExpense | SetBudgetCommand => c
  | ShowSummary =>
      {| c_tracker := fst (show_summary fmt2 title user_id (ev_now e) t);
         c_sessions := c_sessions c |}
  | ShowTransactions =>
      {| c_tracker := fst (show_transactions fmt2 title strftime user_id t);
         c_sessions := c_sessions c |}
  | ShowGoals =>
      {| c_tracker := fst (show_goals fmt2 fmt1 user_id t);
         c_sessions := c_sessions c |}
  | Pressed data =>
      let r := button_handler user_id data t s in
      {| c_tracker := fst (fst r);
         c_sessions := Dict.set user_id (snd (fst r)) (c_sessions c) |}
  | Typed text =>
      let r :=
        handle_message fmt2 capitalize float_of str_exn user_id text
          (ev_now e) (ev_io e) t s in
      {| c_tracker := fst (fst r);
         c_sessions := Dict.set user_id (snd (fst r)) (c_sessions c) |}
  end.

Definition chat_run (events : list event) (c : chat) : chat :=
  fold_left chat_step events c.

End Chat.

(** ** Sample conversations *)

(** A stand-in for [float]: it reads two texts. *)
Definition read_number (text : string) : option Q :=
  if String.eqb text "1000" then Some 1000
  else if String.eqb text "12.5" then Some (25 # 2)
  else None.

Definition no_message : exn -> string := fun _ => "".

Definition goal_step : step :=
  mk_step (Mutate (AddSavingsGoal "Car" 5000 "2025-12-31") WriteOk) "u1"
    mid_month.

Definition awaiting_income : session :=
  mk_session (Some "Salary") None None None.

(** ** The balance on binary64 amounts *)

(** The bookkeeping of [add_transaction] with amounts as the Python floats
    they are: [+=] and [-=] are the binary64 operations, which round. *)
Module Binary64.

Import PrimFloat.

Record transaction : Type := mk_transaction {
  t_id : Z;
  t_date : datetime;
  t_amount : float;
  t_category : string;
  t_type : string;
  t_description : string
}.

Record budget_info : Type := mk_budget_info {
  b_amount : float;
  b_set_date : date
}.

Record goal : Type := mk_goal {
  g_id : Z;
  g_name : string;
  g_target_amount : float;
  g_current_amount : float;
  g_target_date : string;
  g_created_date : date
}.

Record account : Type := mk_account {
  transactions : list transaction;
  budgets : Dict.t budget_info;
  savings_goals : list goal;
  total_savings : float
}.

Record document : Type := mk_document {
  users : Dict.t account
}.

Inductive contents : Type :=
| Dumped (d : document)
| Foreign (v : json)
| NotJson
| NotText.

Inductive file : Type :=
| Absent
| Present (c : contents).

Record tracker : Type := mk_tracker {
  data : document;
  data_file : file
}.

Definition initialize_data : document := {| users := Dict.empty |}.

Definition empty_tracker : tracker :=
  {| data := initialize_data; data_file := Absent |}.

Definition save_data (o : io) (t : tracker) : tracker * result unit :=
  match o with
  | WriteOk =>
      ({| data := data t; data_file := Present (Dumped (data t)) |},
       Return tt)
  | OpenDenied => (t, Raise OSError)
  | WriteInterrupted =>
      ({| data := data t; data_file := Present NotJson |}, Raise OSError)
  end.

Definition new_account : account :=
  {| transactions := [];
     budgets := Dict.empty;
     savings_goals := [];
     total_savings := 0%float |}.

Definition store_user (user_id : string) (a : account) (t : tracker)
  : tracker :=
  {| data := {| users := Dict.set user_id a (users (data t)) |};
     data_file := data_file t |}.

Definition get_user_data (user_id : string) (t : tracker)
  : tracker * account :=
  match Dict.get user_id (users (data t)) with
  | Some a => (t, a)
  | None => (store_user user_id new_account t, new_account)
  end.

Section Engine.

Variable fmt2 : float -> string.            (* [f"{x:.2f}"] *)
Variable capitalize : string -> string.     (* [str.capitalize] *)

Definition add_transaction (user_id : string) (amount : float)
    (category transaction_type description : string)
    (now : datetime) (o : io) (t : tracker) : tracker * result string :=
  let (t1, user_data) := get_user_data user_id t in
  let transaction :=
    {| t_id := Z.of_nat (List.length (transactions user_data)) + 1;
       t_date := now;
       t_amount := amount;
       t_category := category;
       t_type := transaction_type;
       t_description := description |} in
  let total :=
    if String.eqb transaction_type "income"
    then (total_savings user_data + amount)%float
    else if String.eqb transaction_type "expense"
    then (total_savings user_data - amount)%float
    else total_savings user_data in
  let user_data' :=
    {| transactions := transactions user_data ++ [transaction];
       budgets := budgets user_data;
       savings_goals := savings_goals user_data;
       total_savings := total |} in
  let (t2, saved) := save_data o (store_user user_id user_data' t1) in
  (t2,
   _ <- saved ;;
   Return ("✅ " ++ capitalize transaction_type ++ " of $" ++ fmt2 amount
           ++ " added successfully!")).

(** One [add_transaction] call: its arguments, the clock and the disk. *)
Record entry : Type := mk_entry {
  e_amount : float;
  e_category : string;
  e_type : string;
  e_description : string;
  e_now : datetime;
  e_io : io
}.

Definition record_entry (user_id : string) (t : tracker) (e : entry)
  : tracker :=
  fst (add_transaction user_id (e_amount e) (e_category e) (e_type e)
         (e_description e) (e_now e) (e_io e) t).

Definition record_all (user_id : string) (es : list entry) (t : tracker)
  : tracker :=
  fold_left (record_entry user_id) es t.

End Engine.

Definition account_of (user_id : string) (t : tracker) : option account :=
  Dict.get user_id (users (data t)).

Definition recorded (user_id : string) (t : tracker) : list transaction :=
  match account_of user_id t with
  | Some a => transactions a
  | None => []
  end.

Definition balance (user_id : string) (t : tracker) : float :=
  match account_of user_id t with
  | Some a => total_savings a
  | None => 0%float
  end.

(** What one call does to the balance: one addition, one subtraction, or
    nothing. *)
Definition moved (total : float) (transaction_type : string)
    (amount : float) : float :=
  if String.eqb transaction_type "income" then (total + amount)%float
  else if String.eqb transaction_type "expense" then (total - amount)%float
  else total.

(** [sum(t['amount'] for t in txs if t['type'] == ty)], as
    [get_financial_summary] recomputes the totals. *)
Definition sum_amounts (ty : string) (txs : list transaction) : float :=
  fold_left add
    (map t_amount (filter (fun t => String.eqb (t_type t) ty) txs)) 0%float.

(** The rational number a finite float is; 0 for an infinity or a NaN. *)
Definition exact (x : float) : Q :=
  match FloatOps.Prim2SF x with
  | SpecFloat.S754_finite s m e =>
      let n := inject_Z (if s then Z.neg m else Z.pos m) in
      if (0 <=? e)%Z then (n * inject_Z (2 ^ e))%Q
      else (n / inject_Z (2 ^ (- e)))%Q
  | _ => 0
  end.

(** Income 0.1, expense 0.2, income 0.7, as typed in the chat. *)
#[warnings="-inexact-float"]
Definition three_entries : list entry :=
  [ mk_entry 0.1 "Salary" "income" "" (mk_datetime 2024 1 15 10 30 0) WriteOk;
    mk_entry 0.2 "Food" "expense" "" (mk_datetime 2024 1 15 10 31 0) WriteOk;
    mk_entry 0.7 "Gifts" "income" "" (mk_datetime 2024 1 15 10 32 0) WriteOk ].

(** Income 1000, expenses 200 and 50: amounts with nothing to round. *)
Definition whole_entries : list entry :=
  [ mk_entry 1000 "Salary" "income" "" (mk_datetime 2024 1 15 10 30 0) WriteOk;
    mk_entry 200 "Food" "expense" "" (mk_datetime 2024 1 15 10 31 0)
      WriteInterrupted;
    mk_entry 50 "Food" "expense" "" (mk_datetime 2024 1 15 10 32 0) WriteOk ].

End Binary64.

(** ** Dictionary facts *)

Section DictFacts.

Context {V : Type}.

Lemma get_set_same (k : string) (v : V) (d : Dict.t V) :
  Dict.get k (Dict.set k v d) = Some v.
Proof.
  induction d as [|[k' v'] d IH]; simpl.
  - now rewrite String.eqb_refl.
  - destruct (String.eqb k k') eqn:E; simpl; rewrite E; auto.
Qed.

Lemma get_set_other (k k' : string) (v : V) (d : Dict.t V) :
  k' <> k -> Dict.get k' (Dict.set k v d) = Dict.get k' d.
Proof.
  intros Hne.
  induction d as [|[k0 v0] d IH]; simpl.
  - destruct (String.eqb_spec k' k); [contradiction | reflexivity].
  - destruct (String.eqb_spec k k0) as [->|Hk]; simpl.
    + destruct (String.eqb_spec k' k0); [contradiction | reflexivity].
    + now rewrite IH.
Qed.

Lemma set_absent (k : string) (v : V) (d : Dict.t V) :
  Dict.get k d = None -> Dict.set k v d = (d ++ [(k, v)])%list.
Proof.
  induction d as [|[k' v'] d IH]; simpl; intros H; [reflexivity|].
  destruct (String.eqb k k'); [discriminate|].
  now rewrite IH.
Qed.

End DictFacts.

(** ** The account accessor *)

Lemma get_user_data_known (user_id : string) (t : tracker) (a : account) :
  account_of user_id t = Some a -> get_user_data user_id t = (t, a).
Proof. unfold account_of, get_user_data. now intros ->. Qed.

Lemma get_user_data_unknown (user_id : string) (t : tracker) :
  account_of user_id t = None ->
  get_user_data user_id t = (store_user user_id new_account t, new_account).
Proof. unfold account_of, get_user_data. now intros ->. Qed.

Lemma account_of_store_same (user_id : string) (a : account) (t : tracker) :
  account_of user_id (store_user user_id a t) = Some a.
Proof. apply get_set_same. Qed.

Lemma account_of_store_other (user_id other : string) (a : account)
    (t : tracker) :
  other <> user_id ->
  account_of other (store_user user_id a t) = account_of other t.
Proof. intros H. now apply get_set_other. Qed.

Lemma get_user_data_frame (user_id other : string) (t : tracker) :
  other <> user_id ->
  account_of other (fst (get_user_data user_id t)) = account_of other t.
Proof.
  intros H. unfold get_user_data.
  destruct (Dict.get user_id (users (data t))); simpl; [reflexivity|].
  now apply account_of_store_other.
Qed.

Lemma get_user_data_file (user_id : string) (t : tracker) :
  data_file (fst (get_user_data user_id t)) = data_file t.
Proof.
  unfold get_user_data.
  now destruct (Dict.get user_id (users (data t))).
Qed.

Lemma save_data_keeps_data (o : io) (t : tracker) :
  data (fst (save_data o t)) = data t.
Proof. now destruct o. Qed.


Lemma recorded_get_user_data (user_id : string) (t : tracker) :
  recorded user_id t = transactions (snd (get_user_data user_id t)).
Proof.
  unfold recorded, account_of, get_user_data.
  now destruct (Dict.get user_id (users (data t))).
Qed.

Lemma balance_get_user_data (user_id : string) (t : tracker) :
  balance user_id t = total_savings (snd (get_user_data user_id t)).
Proof.
  unfold balance, account_of, get_user_data.
  now destruct (Dict.get user_id (users (data t))).
Qed.

Lemma budgets_get_user_data (user_id : string) (t : tracker) :
  budgets_of user_id t = budgets (snd (get_user_data user_id t)).
Proof.
  unfold budgets_of, account_of, get_user_data.
  now destruct (Dict.get user_id (users (data t))).
Qed.

(** ** The running balance *)

Section Balance.

Variable fmt2 : Q -> string.
Variable capitalize : string -> string.

(** The account after one [add_transaction], saved or not. *)
Lemma add_transaction_account (user_id : string) (amount : Q)
    (category transaction_type description : string) (now : datetime)
    (o : io) (t : tracker) :
  account_of user_id
    (fst (add_transaction fmt2 capitalize user_id amount category
            transaction_type description now o t))
  = Some
      {| transactions :=
           recorded user_id t ++
           [ {| t_id := Z.of_nat (List.length (recorded user_id t)) + 1;
                t_date := now;
                t_amount := amount;
                t_category := category;
                t_type := transaction_type;
                t_description := description |} ];
         budgets := budgets_of user_id t;
         savings_goals := savings_goals (snd (get_user_data user_id t));
         total_savings :=
           if String.eqb transaction_type "income"
           then balance user_id t + amount
           else if String.eqb transaction_type "expense"
           then balance user_id t - amount
           else balance user_id t |}.
Proof.
  rewrite recorded_get_user_data, balance_get_user_data,
    budgets_get_user_data.
  unfold add_transaction.
  destruct (get_user_data user_id t) as [t1 user_data]; simpl snd.
  match goal with
  | |- context [save_data o ?s] =>
      pose proof (save_data_keeps_data o s) as Hs;
      destruct (save_data o s) as [t2 saved]
  end.
  simpl in *. unfold account_of. rewrite Hs. simpl.
  apply get_set_same.
Qed.

Lemma record_entry_transactions (user_id : string) (t : tracker) (e : entry) :
  recorded user_id (record_entry fmt2 capitalize user_id t e)
  = (recorded user_id t ++
     [ {| t_id := Z.of_nat (List.length (recorded user_id t)) + 1;
          t_date := e_now e;
          t_amount := e_amount e;
          t_category := e_category e;
          t_type := e_type e;
          t_description := e_description e |} ])%list.
Proof.
  unfold record_entry, recorded at 1.
  now rewrite add_transaction_account.
Qed.

Lemma record_entry_balance (user_id : string) (t : tracker) (e : entry) :
  balance user_id (record_entry fmt2 capitalize user_id t e)
  = if String.eqb (e_type e) "income"
    then balance user_id t + e_amount e
    else if String.eqb (e_type e) "expense"
    then balance user_id t - e_amount e
    else balance user_id t.
Proof.
  unfold record_entry, balance at 1.
  now rewrite add_transaction_account.
Qed.

End Balance.

(** ** The balance on binary64 amounts *)

Lemma float_recorded_get_user_data (user_id : string)
    (t : Binary64.tracker) :
  Binary64.recorded user_id t
  = Binary64.transactions (snd (Binary64.get_user_data user_id t)).
Proof.
  unfold Binary64.recorded, Binary64.account_of, Binary64.get_user_data.
  now destruct (Dict.get user_id (Binary64.users (Binary64.data t))).
Qed.

Lemma float_balance_get_user_data (user_id : string) (t : Binary64.tracker) :
  Binary64.balance user_id t
  = Binary64.total_savings (snd (Binary64.get_user_data user_id t)).
Proof.
  unfold Binary64.balance, Binary64.account_of, Binary64.get_user_data.
  now destruct (Dict.get user_id (Binary64.users (Binary64.data t))).
Qed.

Lemma float_save_data_keeps_data (o : io) (t : Binary64.tracker) :
  Binary64.data (fst (Binary64.save_data o t)) = Binary64.data t.
Proof. now destruct o. Qed.

Section FloatBalance.

Variable fmt2 : PrimFloat.float -> string.
Variable capitalize : string -> string.

(** The account after one [add_transaction], saved or not. *)
Lemma float_add_transaction_account (user_id : string)
    (t : Binary64.tracker) (e : Binary64.entry) :
  Binary64.account_of user_id
    (Binary64.record_entry fmt2 capitalize user_id t e)
  = Some
      (Binary64.mk_account
         (Binary64.recorded user_id t ++
          [ Binary64.mk_transaction
              (Z.of_nat (List.length (Binary64.recorded user_id t)) + 1)
              (Binary64.e_now e) (Binary64.e_amount e)
              (Binary64.e_category e) (Binary64.e_type e)
              (Binary64.e_description e) ])
         (Binary64.budgets (snd (Binary64.get_user_data user_id t)))
         (Binary64.savings_goals (snd (Binary64.get_user_data user_id t)))
         (Binary64.moved (Binary64.balance user_id t) (Binary64.e_type e)
            (Binary64.e_amount e))).
Proof.
  rewrite float_recorded_get_user_data, float_balance_get_user_data.
  unfold Binary64.record_entry, Binary64.add_transaction.
  destruct (Binary64.get_user_data user_id t) as [t1 user_data].
  cbn [snd].
  match goal with
  | |- context [Binary64.save_data ?o ?s] =>
      pose proof (float_save_data_keeps_data o s) as Hs;
      destruct (Binary64.save_data o s) as [t2 saved]
  end.
  cbn [fst snd] in *. unfold Binary64.account_of. rewrite Hs.
  cbn [Binary64.store_user Binary64.data Binary64.users].
  apply get_set_same.
Qed.

Lemma float_record_entry (user_id : string) (t : Binary64.tracker)
    (e : Binary64.entry) :
  Binary64.recorded user_id
    (Binary64.record_entry fmt2 capitalize user_id t e)
  = (Binary64.recorded user_id t ++
     [ Binary64.mk_transaction
         (Z.of_nat (List.length (Binary64.recorded user_id t)) + 1)
         (Binary64.e_now e) (Binary64.e_amount e) (Binary64.e_category e)
         (Binary64.e_type e) (Binary64.e_description e) ])%list
  /\ Binary64.balance user_id
       (Binary64.record_entry fmt2 capitalize user_id t e)
     = Binary64.moved (Binary64.balance user_id t) (Binary64.e_type e)
         (Binary64.e_amount e).
Proof.
  unfold Binary64.recorded at 1, Binary64.balance at 1.
  now rewrite float_add_transaction_account.
Qed.

(** C1, as amended.  For every sequence of [add_transaction] calls on one
    account, of any types and amounts and whether or not each save
    succeeds, the account's [total_savings] after the calls is what the
    balance before them (0.0 for a new account) becomes by adding each
    income amount and subtracting each expense amount, one binary64
    operation per call, in call order; a call of another type leaves it.
    What is recorded is what was there before followed by the calls.  The
    sequence is arbitrary, so this holds after each call. *)
Theorem total_savings_follows_the_calls (user_id : string)
    (es : list Binary64.entry) (t : Binary64.tracker) :
  Binary64.balance user_id
    (Binary64.record_all fmt2 capitalize user_id es t)
  = fold_left
      (fun total e =>
         Binary64.moved total (Binary64.e_type e) (Binary64.e_amount e))
      es (Binary64.balance user_id t)
  /\ map (fun x => (Binary64.t_type x, Binary64.t_amount x))
       (Binary64.recorded user_id
          (Binary64.record_all fmt2 capitalize user_id es t))
     = (map (fun x => (Binary64.t_type x, Binary64.t_amount x))
          (Binary64.recorded user_id t)
        ++ map (fun e => (Binary64.e_type e, Binary64.e_amount e)) es)%list.
Proof.
  revert t. unfold Binary64.record_all.
  induction es as [|e es IH]; intros t; cbn [fold_left map].
  - split; [reflexivity | now rewrite app_nil_r].
  - destruct (IH (Binary64.record_entry fmt2 capitalize user_id t e))
      as [Hb Hr].
    destruct (float_record_entry user_id t e) as [Hlog Hbal].
    split.
    + now rewrite Hb, Hbal.
    + rewrite Hr, Hlog, map_app, <- app_assoc. reflexivity.
Qed.

End FloatBalance.

Section Rounding.

Import PrimFloat.

(** Income 0.1, expense 0.2, income 0.7 on a new account: the balance is
    the float 0.6, the income less the expenses as [sum] recomputes them is
    the float below it, and the balance is not the exact sum of the three
    amounts either. *)
#[warnings="-inexact-float"]
Lemma rounding_breaks_income_less_expenses :
  let t :=
    Binary64.record_all (fun _ => "") (fun s => s) "u1"
      Binary64.three_entries Binary64.empty_tracker in
  Binary64.balance "u1" t = 0.6%float
  /\ PrimFloat.sub
       (Binary64.sum_amounts "income" (Binary64.recorded "u1" t))
       (Binary64.sum_amounts "expense" (Binary64.recorded "u1" t))
     = 0.5999999999999999%float
  /\ Binary64.balance "u1" t
     <> PrimFloat.sub
          (Binary64.sum_amounts "income" (Binary64.recorded "u1" t))
          (Binary64.sum_amounts "expense" (Binary64.recorded "u1" t))
  /\ ~ Binary64.exact (Binary64.balance "u1" t)
       == Binary64.exact 0.1%float + Binary64.exact 0.7%float
          - Binary64.exact 0.2%float.
Proof.
  cbv zeta. split; [vm_compute; reflexivity|].
  split; [vm_compute; reflexivity|]. split.
  - intros H. apply (f_equal FloatOps.Prim2SF) in H.
    vm_compute in H. discriminate H.
  - intros H. vm_compute in H. discriminate H.
Qed.

(** Income 1000 and expenses 200 and 50 round nowhere: the balance is 750,
    which is also the income less the expenses as [sum] recomputes them. *)
Lemma whole_amounts_do_not_round :
  let t :=
    Binary64.record_all (fun _ => "") (fun s => s) "u1"
      Binary64.whole_entries Binary64.empty_tracker in
  Binary64.balance "u1" t = 750%float
  /\ PrimFloat.sub
       (Binary64.sum_amounts "income" (Binary64.recorded "u1" t))
       (Binary64.sum_amounts "expense" (Binary64.recorded "u1" t))
     = 750%float.
Proof. cbv zeta. split; vm_compute; reflexivity. Qed.

End Rounding.

(** ** Saving *)

Section Saving.

Variable fmt2 : Q -> string.
Variable capitalize : string -> string.

(** C2, as amended.  When the save of a mutating call fails, the call
    raises the failure and returns no confirmation; the change stays in the
    in-memory document, which is the one a successful call leaves; the data
    file is as before when it could not be opened, and is cut short, no
    longer JSON, when writing to it failed. *)
Theorem failed_save_is_raised (m : mutation) (user_id : string)
    (now : datetime) (o : io) (t : tracker) :
  o <> WriteOk ->
  snd (perform fmt2 capitalize m user_id now o t) = Raise OSError
  /\ data (fst (perform fmt2 capitalize m user_id now o t))
     = data (fst (perform fmt2 capitalize m user_id now WriteOk t))
  /\ data_file (fst (perform fmt2 capitalize m user_id now o t))
     = match o with
       | OpenDenied => data_file t
       | _ => Present NotJson
       end.
Proof.
  intros Ho.
  destruct m; unfold perform, add_transaction, set_budget, add_savings_goal;
    pose proof (get_user_data_file user_id t) as Hf;
    destruct (get_user_data user_id t) as [t1 user_data];
    destruct o; try contradiction; simpl in *; auto.
Qed.

End Saving.

(** ** Unknown users and the other accounts *)

Section Frame.

Variable fmt2 : Q -> string.
Variable fmt1 : Q -> string.
Variable capitalize : string -> string.
Variable title : string -> string.
Variable strftime : datetime -> string.

Lemma ask_is_get_user_data (q : query) (user_id : string) (now : datetime)
    (t : tracker) :
  ask fmt2 fmt1 title strftime q user_id now t
  = fst (get_user_data user_id t).
Proof.
  destruct q; unfold ask, get_financial_summary, view_transactions,
    view_savings_goals;
    now destruct (get_user_data user_id t).
Qed.

Lemma perform_frame (m : mutation) (user_id other : string) (now : datetime)
    (o : io) (t : tracker) :
  other <> user_id ->
  account_of other (fst (perform fmt2 capitalize m user_id now o t))
  = account_of other t.
Proof.
  intros Hne.
  pose proof (get_user_data_frame user_id other t Hne) as Hf.
  destruct m; unfold perform, add_transaction, set_budget, add_savings_goal;
    destruct (get_user_data user_id t) as [t1 user_data];
    match goal with
    | |- context [save_data o ?s] =>
        pose proof (save_data_keeps_data o s) as Hs;
        destruct (save_data o s) as [t2 saved]
    end;
    simpl in *; unfold account_of in *; rewrite Hs; simpl;
    rewrite get_set_other by assumption; exact Hf.
Qed.

Lemma perform_unknown (m : mutation) (user_id : string) (now : datetime)
    (o : io) (t : tracker) :
  account_of user_id t = None ->
  perform fmt2 capitalize m user_id now o t
  = perform fmt2 capitalize m user_id now o
      (store_user user_id new_account t).
Proof.
  intros Hnone.
  destruct m; unfold perform, add_transaction, set_budget, add_savings_goal;
    rewrite (get_user_data_unknown _ _ Hnone);
    rewrite (get_user_data_known user_id (store_user user_id new_account t)
               new_account (account_of_store_same _ _ _));
    reflexivity.
Qed.

(** C10. Every engine method, the read-only ones included, called with a
    user id the document does not have, puts a fresh empty account (no
    transactions, no budgets, no goals, balance 0) in the in-memory document
    under that id, after the accounts already there: a mutating method then
    goes on as it does on that account, a read-only one leaves the tracker
    as it is then.  A read-only method never touches the data file.  No
    method changes the account of any other user. *)
Theorem unknown_user_gets_fresh_account (c : call) (user_id : string)
    (now : datetime) (t : tracker) :
  (account_of user_id t = None ->
   users (data (store_user user_id new_account t))
   = (users (data t) ++ [(user_id, new_account)])%list
   /\ account_of user_id (store_user user_id new_account t)
      = Some new_account
   /\ new_account = mk_account [] [] [] 0
   /\ after fmt2 fmt1 capitalize title strftime c user_id now t
      = after fmt2 fmt1 capitalize title strftime c user_id now
          (store_user user_id new_account t)
   /\ (read_only c = true ->
       after fmt2 fmt1 capitalize title strftime c user_id now t
       = store_user user_id new_account t))
  /\ (read_only c = true ->
      data_file (after fmt2 fmt1 capitalize title strftime c user_id now t)
      = data_file t)
  /\ (forall other : string,
        other <> user_id ->
        account_of other
          (after fmt2 fmt1 capitalize title strftime c user_id now t)
        = account_of other t).
Proof.
  split; [intros Hnone | split].
  - split; [|split; [|split; [|split]]].
    + simpl. now apply set_absent.
    + apply account_of_store_same.
    + reflexivity.
    + destruct c as [m o|q]; simpl.
      * now rewrite perform_unknown.
      * rewrite !ask_is_get_user_data.
        rewrite (get_user_data_unknown _ _ Hnone).
        now rewrite (get_user_data_known _ _ _ (account_of_store_same _ _ _)).
    + destruct c as [m o|q]; [discriminate|]. intros _. simpl.
      rewrite ask_is_get_user_data.
      now rewrite (get_user_data_unknown _ _ Hnone).
  - destruct c as [m o|q]; [discriminate|]. intros _. simpl.
    rewrite ask_is_get_user_data. apply get_user_data_file.
  - intros other Hne. destruct c as [m o|q]; simpl.
    + now apply perform_frame.
    + rewrite ask_is_get_user_data. now apply get_user_data_frame.
Qed.

End Frame.

(** ** Periods *)

Lemma datetime_new_first (y m : Z) :
  (MINYEAR <= y <= MAXYEAR)%Z -> (1 <= m <= 12)%Z ->
  datetime_new y m 1 = Return (mk_datetime y m 1 0 0 0).
Proof.
  intros Hy Hm. unfold datetime_new.
  assert (Hd : (28 <= days_in_month y m)%Z).
  { unfold days_in_month.
    destruct (m =? 2)%Z; [destruct (is_leap y); lia|].
    destruct ((m =? 4) || (m =? 6) || (m =? 9) || (m =? 11))%Z; lia. }
  replace (MINYEAR <=? y)%Z with true by (symmetry; apply Z.leb_le; lia).
  replace (y <=? MAXYEAR)%Z with true by (symmetry; apply Z.leb_le; lia).
  replace (1 <=? m)%Z with true by (symmetry; apply Z.leb_le; lia).
  replace (m <=? 12)%Z with true by (symmetry; apply Z.leb_le; lia).
  replace (1 <=? days_in_month y m)%Z with true
    by (symmetry; apply Z.leb_le; lia).
  reflexivity.
Qed.

Lemma valid_datetime_bounds (d : datetime) :
  valid_datetime d = true ->
  (MINYEAR <= year d <= MAXYEAR /\ 1 <= month d <= 12
   /\ 1 <= day d <= days_in_month (year d) (month d)
   /\ 0 <= hour d <= 23 /\ 0 <= minute d <= 59 /\ 0 <= second d <= 59)%Z.
Proof.
  unfold valid_datetime. rewrite !andb_true_iff, !Z.leb_le. tauto.
Qed.

(** With the clock not in the first or the last year of the calendar,
    every period has a range. *)
Lemma period_range_returns (period : string) (now : datetime) :
  valid_datetime now = true ->
  (MINYEAR < year now < MAXYEAR)%Z ->
  exists range, period_range period now = Return range.
Proof.
  intros Hv Hy. apply valid_datetime_bounds in Hv.
  destruct Hv as (_ & Hm & _).
  unfold period_range.
  destruct (String.eqb period "current_month").
  - rewrite datetime_new_first by lia. simpl bind.
    destruct (Z.ltb_spec (month now) 12).
    + rewrite datetime_new_first by lia. simpl bind.
      unfold minus_one_day; simpl.
      replace (1 <? month now + 1)%Z with true
        by (symmetry; apply Z.ltb_lt; lia).
      eexists; reflexivity.
    + rewrite datetime_new_first by lia. simpl bind.
      unfold minus_one_day; simpl.
      replace (MINYEAR <? year now + 1)%Z with true
        by (symmetry; apply Z.ltb_lt; lia).
      eexists; reflexivity.
  - destruct (String.eqb period "last_month").
    + destruct (Z.ltb_spec 1 (month now)).
      * rewrite !datetime_new_first by lia. simpl bind.
        unfold minus_one_day; simpl.
        replace (1 <? month now)%Z with true
          by (symmetry; apply Z.ltb_lt; lia).
        eexists; reflexivity.
      * rewrite !datetime_new_first by lia. simpl bind.
        unfold minus_one_day; simpl.
        replace (1 <? month now)%Z with false
          by (symmetry; apply Z.ltb_ge; lia).
        replace (MINYEAR <? year now)%Z with true
          by (symmetry; apply Z.ltb_lt; lia).
        eexists; reflexivity.
    + eexists; reflexivity.
Qed.

Lemma period_range_all_time (period : string) (now : datetime) :
  period <> "current_month" -> period <> "last_month" ->
  period_range period now = Return (sentinel_start, sentinel_end).
Proof.
  intros H1 H2. unfold period_range.
  destruct (String.eqb_spec period "current_month"); [contradiction|].
  destruct (String.eqb_spec period "last_month"); [contradiction|].
  reflexivity.
Qed.

Lemma filter_all {A : Type} (p : A -> bool) (l : list A) :
  Forall (fun x => p x = true) l -> filter p l = l.
Proof.
  induction 1 as [|x l Hx _ IH]; simpl; [reflexivity|].
  now rewrite Hx, IH.
Qed.

(** ** Budget alerts *)

Section Alerts.

Variable fmt2 : Q -> string.

Lemma budget_alerts_from (by_category : Dict.t Q)
    (bs : list (string * budget_info)) (alerts : list string) :
  fold_left
    (fun (alerts : list string) item =>
       let category := fst item in
       let spent := Dict.get_default category 0%Q by_category in
       let budget := b_amount (snd item) in
       if Qltb budget spent
       then (alerts ++ [alert_text fmt2 category spent budget])%list
       else alerts)
    bs alerts
  = (alerts
     ++ map (alert_of fmt2 by_category) (filter (over_budget by_category) bs))%list.
Proof.
  revert alerts.
  induction bs as [|item bs IH]; intros alerts; simpl.
  - now rewrite app_nil_r.
  - rewrite IH. unfold over_budget at 2.
    destruct (Qltb (b_amount (snd item))
                (Dict.get_default (fst item) 0 by_category)); simpl.
    + now rewrite <- app_assoc.
    + reflexivity.
Qed.

(** The alerts are those of the budgeted categories whose spending in the
    period is strictly above the budget, in the order of the budget
    table. *)
Lemma budget_alerts_are_the_overspent (by_category : Dict.t Q)
    (bs : Dict.t budget_info) :
  budget_alerts fmt2 by_category bs
  = map (alert_of fmt2 by_category) (filter (over_budget by_category) bs).
Proof. unfold budget_alerts, Dict.items. now rewrite budget_alerts_from. Qed.

Lemma Qltb_lt (a b : Q) : Qltb a b = true <-> a < b.
Proof.
  unfold Qltb. rewrite negb_true_iff.
  split.
  - intros H. apply Qnot_le_lt. intros Hle.
    apply Qle_bool_iff in Hle. congruence.
  - intros H. destruct (Qle_bool b a) eqn:E; [|reflexivity].
    apply Qle_bool_iff in E. exfalso. apply (Qlt_not_le _ _ H E).
Qed.

End Alerts.

(** ** Summaries *)

Section Summaries.

Variable fmt2 : Q -> string.

(** The summary, from what the account holds before the call. *)
Lemma get_financial_summary_result (user_id period : string)
    (now : datetime) (t : tracker) :
  snd (get_financial_summary fmt2 user_id period now t)
  = (range <- period_range period now ;;
     let txs := period_transactions range (recorded user_id t) in
     Return {| s_period := period;
               s_total_income := sum_amounts "income" txs;
               s_total_expenses := sum_amounts "expense" txs;
               s_net_savings :=
                 sum_amounts "income" txs - sum_amounts "expense" txs;
               s_expenses_by_category := expenses_by_category txs;
               s_budget_alerts :=
                 budget_alerts fmt2 (expenses_by_category txs)
                   (budgets_of user_id t);
               s_total_savings := balance user_id t |}).
Proof.
  rewrite recorded_get_user_data, balance_get_user_data,
    budgets_get_user_data.
  unfold get_financial_summary.
  now destruct (get_user_data user_id t).
Qed.

Lemma no_alerts_without_spending (bs : Dict.t budget_info) :
  Forall (fun item => 0 <= b_amount (snd item)) bs ->
  budget_alerts fmt2 Dict.empty bs = [].
Proof.
  intros H. rewrite budget_alerts_are_the_overspent.
  induction H as [|item bs Hitem _ IH]; simpl; [reflexivity|].
  unfold over_budget at 1. cbn [Dict.get_default Dict.get Dict.empty].
  unfold Qltb. apply Qle_bool_iff in Hitem. rewrite Hitem. exact IH.
Qed.

(** C5, as amended.  For an account with no transaction in the date range
    of the requested period, whatever budgets are set, the summary has
    income 0, expenses 0, net savings 0 and no category; its alerts are
    one alert, with 0 spent, for each budget whose amount is below 0, in
    the order of the budget table, and so there is no alert when no
    budget is negative.  (Every period has a date range unless the clock
    is in the first or the last year of the calendar:
    [period_range_returns].) *)
Theorem empty_period_summary (user_id period : string) (now : datetime)
    (range : datetime * datetime) (t : tracker) :
  period_range period now = Return range ->
  period_transactions range (recorded user_id t) = [] ->
  snd (get_financial_summary fmt2 user_id period now t)
  = Return {| s_period := period;
              s_total_income := 0;
              s_total_expenses := 0;
              s_net_savings := 0;
              s_expenses_by_category := [];
              s_budget_alerts :=
                map (fun item =>
                       alert_text fmt2 (fst item) 0 (b_amount (snd item)))
                  (filter (fun item => Qltb (b_amount (snd item)) 0)
                     (budgets_of user_id t));
              s_total_savings := balance user_id t |}
  /\ (forall item : string * budget_info,
        Qltb (b_amount (snd item)) 0 = true <-> b_amount (snd item) < 0)
  /\ (Forall (fun item => 0 <= b_amount (snd item)) (budgets_of user_id t) ->
      map (fun item => alert_text fmt2 (fst item) 0 (b_amount (snd item)))
        (filter (fun item => Qltb (b_amount (snd item)) 0)
           (budgets_of user_id t))
      = []).
Proof.
  intros Hr Hnone. split; [|split].
  - rewrite get_financial_summary_result, Hr. cbn [bind].
    rewrite Hnone. cbn [expenses_by_category fold_left].
    now rewrite budget_alerts_are_the_overspent.
  - intros item. apply Qltb_lt.
  - intros Hb.
    rewrite <- (no_alerts_without_spending _ Hb).
    now rewrite budget_alerts_are_the_overspent.
Qed.

Lemma dt_leb_sentinel_start (d : datetime) :
  valid_datetime d = true -> (2000 <= year d)%Z ->
  dt_leb sentinel_start d = true.
Proof.
  intros Hv Hy. apply valid_datetime_bounds in Hv.
  unfold dt_leb, dt_compare, sentinel_start.
  cbn [year month day hour minute second].
  destruct (Z.compare_spec 2000 (year d)); [|reflexivity|lia].
  destruct (Z.compare_spec 1 (month d)); [|reflexivity|lia].
  destruct (Z.compare_spec 1 (day d)); [|reflexivity|lia].
  destruct (Z.compare_spec 0 (hour d)); [|reflexivity|lia].
  destruct (Z.compare_spec 0 (minute d)); [|reflexivity|lia].
  destruct (Z.compare_spec 0 (second d)); [reflexivity|reflexivity|lia].
Qed.

Lemma dt_leb_sentinel_end (d : datetime) :
  (year d < 2100)%Z -> dt_leb d sentinel_end = true.
Proof.
  intros Hy. unfold dt_leb, dt_compare, sentinel_end.
  cbn [year month day hour minute second].
  destruct (Z.compare_spec (year d) 2100); [lia|reflexivity|lia].
Qed.

(** C4, as amended.  The all-time period, which is any period other than
    [current_month] and [last_month], is the range from 2000-01-01
    00:00:00 to 2100-01-01 00:00:00, both included: the summary is over
    the transactions of the account dated in that range, which are all of
    them when every one is dated in it.  With the clock in a year after
    2000 and before 2100, a transaction dated in the previous month is in
    that range. *)
Theorem all_time_is_2000_to_2100 (user_id period : string) (now : datetime)
    (t : tracker) :
  period <> "current_month" -> period <> "last_month" ->
  period_range period now = Return (sentinel_start, sentinel_end)
  /\ (let txs := filter in_sentinels (recorded user_id t) in
      snd (get_financial_summary fmt2 user_id period now t)
      = Return {| s_period := period;
                  s_total_income := sum_amounts "income" txs;
                  s_total_expenses := sum_amounts "expense" txs;
                  s_net_savings :=
                    sum_amounts "income" txs - sum_amounts "expense" txs;
                  s_expenses_by_category := expenses_by_category txs;
                  s_budget_alerts :=
                    budget_alerts fmt2 (expenses_by_category txs)
                      (budgets_of user_id t);
                  s_total_savings := balance user_id t |})
  /\ (Forall (fun tx => in_sentinels tx = true) (recorded user_id t) ->
      filter in_sentinels (recorded user_id t) = recorded user_id t)
  /\ (forall tx,
        (2000 < year now < 2100)%Z ->
        (1 <= month now <= 12)%Z ->
        valid_datetime (t_date tx) = true ->
        in_month (previous_month now) (t_date tx) = true ->
        in_sentinels tx = true).
Proof.
  intros H1 H2.
  pose proof (period_range_all_time period now H1 H2) as Hr.
  split; [exact Hr|]. split; [|split].
  - intros txs. subst txs.
    now rewrite get_financial_summary_result, Hr.
  - apply filter_all.
  - intros tx Hy Hm Hv Hin.
    unfold in_month, previous_month in Hin.
    apply andb_true_iff in Hin. destruct Hin as [Hyear Hmonth].
    unfold in_sentinels. apply andb_true_iff.
    destruct (Z.ltb_spec 1 (month now)); simpl in Hyear, Hmonth;
      apply Z.eqb_eq in Hyear; apply Z.eqb_eq in Hmonth;
      (split; [apply dt_leb_sentinel_start | apply dt_leb_sentinel_end]);
      auto; lia.
Qed.

End Summaries.

(** ** Listings *)

Lemma str_app_assoc (a b c : string) : (a ++ b) ++ c = a ++ (b ++ c).
Proof. induction a as [|x a IH]; simpl; [reflexivity | now rewrite IH]. Qed.

Lemma str_app_nil_r (a : string) : a ++ "" = a.
Proof. induction a as [|x a IH]; simpl; [reflexivity | now rewrite IH]. Qed.

Lemma fold_left_append {A : Type} (f : A -> string) (l : list A)
    (init : string) :
  fold_left (fun message x => message ++ f x) l init
  = init ++ join_text (map f l).
Proof.
  revert init. induction l as [|x l IH]; intros init; simpl.
  - now rewrite str_app_nil_r.
  - now rewrite IH, str_app_assoc.
Qed.

Lemma slice_from_last {A : Type} (limit : Z) (l : list A) :
  (0 < limit)%Z ->
  slice_from (- limit) l = skipn (List.length l - Z.to_nat limit) l.
Proof.
  intros H. unfold slice_from.
  replace (- limit <? 0)%Z with true by (symmetry; apply Z.ltb_lt; lia).
  f_equal. lia.
Qed.

Lemma slice_from_zero {A : Type} (l : list A) : slice_from (- 0) l = l.
Proof.
  unfold slice_from. simpl.
  replace (Z.to_nat (Z.min 0 (Z.of_nat (List.length l)))) with O by lia.
  reflexivity.
Qed.

Lemma skipn_nonempty {A : Type} (n : nat) (l : list A) :
  (n < List.length l)%nat -> skipn n l <> [].
Proof.
  intros H E. apply (f_equal (@List.length A)) in E.
  rewrite length_skipn in E. simpl in E. lia.
Qed.

Lemma goals_get_user_data (user_id : string) (t : tracker) :
  goals_of user_id t = savings_goals (snd (get_user_data user_id t)).
Proof.
  unfold goals_of, account_of, get_user_data.
  now destruct (Dict.get user_id (users (data t))).
Qed.

Section Listings.

Variable fmt2 : Q -> string.
Variable fmt1 : Q -> string.
Variable title : string -> string.
Variable strftime : datetime -> string.

Lemma view_transactions_result (user_id : string) (limit : Z) (t : tracker) :
  snd (view_transactions fmt2 title strftime user_id limit t)
  = match slice_from (- limit) (recorded user_id t) with
    | [] => "No transactions found."
    | _ =>
        ("📋 Recent Transactions:" ++ nl ++ nl)
        ++ join_text
             (map (transaction_text fmt2 title strftime)
                (rev (slice_from (- limit) (recorded user_id t))))
    end.
Proof.
  rewrite recorded_get_user_data. unfold view_transactions.
  destruct (get_user_data user_id t) as [t1 user_data]. cbn [fst snd].
  destruct (slice_from (- limit) (transactions user_data)); [reflexivity|].
  now rewrite fold_left_append.
Qed.

(** C6. For a positive limit, the listing of an account with transactions
    is the header followed by the texts of its last [limit] transactions,
    the most recent first; with five transactions and limit 2 these are
    the fifth, then the fourth; an account with no transactions gives
    "No transactions found.", for any limit. *)
Theorem view_transactions_most_recent_first (user_id : string)
    (t : tracker) :
  (forall limit : Z,
     (0 < limit)%Z ->
     recorded user_id t <> [] ->
     snd (view_transactions fmt2 title strftime user_id limit t)
     = ("📋 Recent Transactions:" ++ nl ++ nl)
       ++ join_text
            (map (transaction_text fmt2 title strftime)
               (firstn (Z.to_nat limit) (rev (recorded user_id t)))))
  /\ (forall a b c d e : transaction,
        recorded user_id t = [a; b; c; d; e] ->
        snd (view_transactions fmt2 title strftime user_id 2 t)
        = ("📋 Recent Transactions:" ++ nl ++ nl)
          ++ join_text
               [transaction_text fmt2 title strftime e;
                transaction_text fmt2 title strftime d])
  /\ (forall limit : Z,
        recorded user_id t = [] ->
        snd (view_transactions fmt2 title strftime user_id limit t)
        = "No transactions found.").
Proof.
  split; [|split].
  - intros limit Hpos Hne.
    rewrite view_transactions_result, slice_from_last by assumption.
    rewrite firstn_rev.
    destruct (skipn (List.length (recorded user_id t) - Z.to_nat limit)
                (recorded user_id t)) eqn:E; [|reflexivity].
    exfalso. revert E. apply skipn_nonempty.
    destruct (recorded user_id t); [contradiction | cbn [List.length]; lia].
  - intros a b c d e E.
    rewrite view_transactions_result, E. reflexivity.
  - intros limit E.
    rewrite view_transactions_result, E.
    unfold slice_from. now rewrite skipn_nil.
Qed.

(** C9. With limit 0 the slice [transactions[-0:]] is the whole list: an
    account with at least one transaction gets the listing of all of its
    transactions, the most recent first, and not "No transactions found.";
    that message is what an account with no transactions gets. *)
Theorem view_transactions_limit_zero_lists_all (user_id : string)
    (t : tracker) :
  slice_from (- 0) (recorded user_id t) = recorded user_id t
  /\ (recorded user_id t <> [] ->
      snd (view_transactions fmt2 title strftime user_id 0 t)
      = ("📋 Recent Transactions:" ++ nl ++ nl)
        ++ join_text
             (map (transaction_text fmt2 title strftime)
                (rev (recorded user_id t)))
      /\ snd (view_transactions fmt2 title strftime user_id 0 t)
         <> "No transactions found.")
  /\ (recorded user_id t = [] ->
      snd (view_transactions fmt2 title strftime user_id 0 t)
      = "No transactions found.").
Proof.
  split; [apply slice_from_zero|]. split.
  - intros Hne.
    rewrite view_transactions_result, slice_from_zero.
    destruct (recorded user_id t) as [|x l] eqn:E; [contradiction|].
    split; [reflexivity|]. discriminate.
  - intros E. rewrite view_transactions_result, slice_from_zero, E.
    reflexivity.
Qed.

End Listings.

(** ** Savings goals *)

Lemma truediv_positive (a b : Q) :
  Qltb 0 b = true -> truediv a b = Return (a / b).
Proof.
  intros H. apply Qltb_lt in H. unfold truediv.
  destruct (Qeq_bool b 0) eqn:E; [|reflexivity].
  apply Qeq_bool_eq in E. rewrite E in H.
  exfalso. exact (Qlt_irrefl 0 H).
Qed.

Lemma progress_of_percentage (g : goal) :
  progress_of g = Return (percentage g).
Proof.
  unfold progress_of, percentage.
  destruct (Qltb 0 (g_target_amount g)) eqn:E; [|reflexivity].
  now rewrite truediv_positive.
Qed.

Section Goals.

Variable fmt2 : Q -> string.
Variable fmt1 : Q -> string.

Lemma goals_fold (gs : list goal) (init : string) :
  fold_left
    (fun message g =>
       m <- message ;;
       progress <- progress_of g ;;
       Return (m ++ goal_text fmt2 fmt1 g progress))
    gs (Return init)
  = Return
      (init
       ++ join_text (map (fun g => goal_text fmt2 fmt1 g (percentage g)) gs)).
Proof.
  revert init. induction gs as [|g gs IH]; intros init; simpl.
  - now rewrite str_app_nil_r.
  - rewrite progress_of_percentage. cbn [bind].
    now rewrite IH, str_app_assoc.
Qed.

(** C8. The progress of a goal is its saved amount over its target times
    100 when the target is positive, and 0 otherwise, so 0 for a target of
    0; the division is reached only with a positive, hence non-zero,
    divisor, and never raises.  The listing of the goals returns, with
    that percentage for every goal. *)
Theorem progress_never_divides_by_zero (g : goal) :
  (0 < g_target_amount g ->
   progress_of g
   = Return (g_current_amount g / g_target_amount g * 100))
  /\ (g_target_amount g == 0 -> progress_of g = Return 0)
  /\ (~ 0 < g_target_amount g -> progress_of g = Return 0)
  /\ (Qltb 0 (g_target_amount g) = true ->
      truediv (g_current_amount g) (g_target_amount g)
      <> Raise ZeroDivisionError)
  /\ progress_of g <> Raise ZeroDivisionError
  /\ (forall (user_id : string) (t : tracker),
        In g (goals_of user_id t) ->
        snd (view_savings_goals fmt2 fmt1 user_id t)
        = Return
            (("🎯 Savings Goals:" ++ nl ++ nl)
             ++ join_text
                  (map (fun g => goal_text fmt2 fmt1 g (percentage g))
                     (goals_of user_id t)))).
Proof.
  assert (Hnot : ~ 0 < g_target_amount g -> progress_of g = Return 0).
  { intros H. rewrite progress_of_percentage. unfold percentage.
    destruct (Qltb 0 (g_target_amount g)) eqn:E; [|reflexivity].
    apply Qltb_lt in E. contradiction. }
  repeat split.
  - intros H. rewrite progress_of_percentage. unfold percentage.
    apply Qltb_lt in H. now rewrite H.
  - intros H. apply Hnot. rewrite H. apply Qlt_irrefl.
  - exact Hnot.
  - intros H. now rewrite truediv_positive.
  - now rewrite progress_of_percentage.
  - intros user_id t Hin.
    rewrite goals_get_user_data in *. unfold view_savings_goals.
    destruct (get_user_data user_id t) as [t1 user_data]. cbn [fst snd] in *.
    destruct (savings_goals user_data) as [|g0 gs] eqn:E; [contradiction|].
    apply goals_fold.
Qed.

End Goals.

(** ** Loading *)

(** A missing data file, and one whose text is not JSON, give the empty
    document and no error. *)
Lemma load_data_self_heals (f : file) :
  f = Absent \/ f = Present NotJson ->
  load_data f = Return (Doc initialize_data).
Proof. now intros [-> | ->]. Qed.

(** Bytes that do not decode to text are not caught. *)
Lemma load_data_undecodable :
  load_data (Present NotText) = Raise UnicodeDecodeError.
Proof. reflexivity. Qed.

(** What a completed save wrote is what the next start loads. *)
Lemma load_data_after_save (t : tracker) :
  load_data (data_file (fst (save_data WriteOk t))) = Return (Doc (data t)).
Proof. reflexivity. Qed.

(** C7. The data file holds the JSON text of an object with no ['users']
    key: [load_data] neither rejects it nor starts from the empty document,
    it keeps the value as [self.data], and the first [self.data['users']]
    of any engine method then raises [KeyError]. *)
Theorem load_data_keeps_json_that_is_no_document :
  load_data (Present (Foreign (JObj []))) = Return (Other (JObj []))
  /\ load_data (Present (Foreign (JObj []))) <> Return (Doc initialize_data)
  /\ subscript_users (Other (JObj [])) = Raise KeyError.
Proof. repeat split. discriminate. Qed.

(** ** The scenario of the specification *)

Section Scenario.

Variable fmt2 : Q -> string.
Variable capitalize : string -> string.

(** In the middle of the month the summary is the one the specification
    gives. *)
Lemma scenario_mid_month :
  snd (scenario fmt2 capitalize mid_month)
  = Return {| s_period := "current_month";
              s_total_income := 1000;
              s_total_expenses := 250;
              s_net_savings := 750;
              s_expenses_by_category := [("Food", 250)];
              s_budget_alerts := [alert_text fmt2 "Food" 250 100];
              s_total_savings := 750 |}.
Proof. reflexivity. Qed.

(** C3. On the last day of a month, at noon, the range of
    [current_month] ends at the midnight that began the day
    (2024-01-31 00:00:00), so the three transactions recorded that day are
    left out: the summary has income 0, expenses 0, net savings 0, no
    category and no alert, where the specification has 1000, 250, 750,
    Food at 250 and one alert. *)
Theorem scenario_on_last_day_of_month :
  period_range "current_month" last_day_noon
  = Return (mk_datetime 2024 1 1 0 0 0, mk_datetime 2024 1 31 0 0 0)
  /\ snd (scenario fmt2 capitalize last_day_noon)
     = Return {| s_period := "current_month";
                 s_total_income := 0;
                 s_total_expenses := 0;
                 s_net_savings := 0;
                 s_expenses_by_category := [];
                 s_budget_alerts := [];
                 s_total_savings := 750 |}.
Proof. split; reflexivity. Qed.

End Scenario.

(** ** Runs that settle the statements above *)

(** A first income of 5 whose save is interrupted: the call raises, and
    both the in-memory document and the data file have changed. *)
Lemma failed_save_changes_memory_and_file :
  let r := perform no_fmt as_is (AddTransaction 5 "Salary" "income" "")
             "u1" mid_month WriteInterrupted saved_tracker in
  snd r = Raise OSError
  /\ data (fst r) <> data saved_tracker
  /\ data_file (fst r) <> data_file saved_tracker
  /\ balance "u1" (fst r) = 5.
Proof. repeat split; discriminate. Qed.

Lemma failed_save_is_raised_witness :
  WriteInterrupted <> WriteOk
  /\ snd (perform no_fmt as_is (SetBudget "Food" 100) "u1" mid_month
            WriteInterrupted saved_tracker) = Raise OSError.
Proof.
  split; [discriminate|].
  apply (failed_save_is_raised no_fmt as_is (SetBudget "Food" 100) "u1"
           mid_month WriteInterrupted saved_tracker).
  discriminate.
Defined.

(** A transaction recorded with the clock in June 2100 is not in the
    all-time summary asked for at that moment. *)
Lemma all_time_misses_a_transaction_of_2100 :
  let t := fst (add_transaction no_fmt as_is "u1" 5 "Salary" "income" ""
                  year_2100 WriteOk empty_tracker) in
  valid_datetime year_2100 = true
  /\ List.length (recorded "u1" t) = 1%nat
  /\ snd (get_financial_summary no_fmt "u1" "all_time" year_2100 t)
     = Return {| s_period := "all_time";
                 s_total_income := 0;
                 s_total_expenses := 0;
                 s_net_savings := 0;
                 s_expenses_by_category := [];
                 s_budget_alerts := [];
                 s_total_savings := 5 |}.
Proof. repeat split. Qed.

Lemma all_time_is_2000_to_2100_witness :
  "all_time" <> "current_month" /\ "all_time" <> "last_month"
  /\ period_range "all_time" mid_month
     = Return (sentinel_start, sentinel_end).
Proof.
  assert (H1 : "all_time" <> "current_month") by discriminate.
  assert (H2 : "all_time" <> "last_month") by discriminate.
  split; [exact H1|]. split; [exact H2|].
  apply (all_time_is_2000_to_2100 no_fmt "u1" "all_time" mid_month
           empty_tracker H1 H2).
Defined.

(** A budget of -1 and no transaction at all: the summary has an alert. *)
Lemma negative_budget_alerts_without_transactions :
  let t := fst (set_budget no_fmt "u1" "Food" (-1) mid_month WriteOk
                  empty_tracker) in
  recorded "u1" t = []
  /\ snd (get_financial_summary no_fmt "u1" "current_month" mid_month t)
     = Return {| s_period := "current_month";
                 s_total_income := 0;
                 s_total_expenses := 0;
                 s_net_savings := 0;
                 s_expenses_by_category := [];
                 s_budget_alerts := [alert_text no_fmt "Food" 0 (-1)];
                 s_total_savings := 0 |}.
Proof. split; reflexivity. Qed.

Lemma empty_period_summary_witness :
  period_range "current_month" mid_month
  = Return (mk_datetime 2024 1 1 0 0 0, mk_datetime 2024 1 31 0 0 0)
  /\ snd (get_financial_summary no_fmt "u1" "current_month" mid_month
            (fst (set_budget no_fmt "u1" "Food" (-1) mid_month WriteOk
                    empty_tracker)))
     = Return {| s_period := "current_month";
                 s_total_income := 0;
                 s_total_expenses := 0;
                 s_net_savings := 0;
                 s_expenses_by_category := [];
                 s_budget_alerts := [alert_text no_fmt "Food" 0 (-1)];
                 s_total_savings := 0 |}.
Proof.
  split; [reflexivity|].
  apply (proj1
           (empty_period_summary no_fmt "u1" "current_month" mid_month
              (mk_datetime 2024 1 1 0 0 0, mk_datetime 2024 1 31 0 0 0)
              (fst (set_budget no_fmt "u1" "Food" (-1) mid_month WriteOk
                      empty_tracker))
              eq_refl eq_refl)).
Defined.

Lemma view_transactions_most_recent_first_witness :
  (0 < 2)%Z
  /\ recorded "u1" five_transactions <> []
  /\ snd (view_transactions no_fmt as_is no_date "u1" 2 five_transactions)
     = ("📋 Recent Transactions:" ++ nl ++ nl)
       ++ join_text
            (map (transaction_text no_fmt as_is no_date)
               (firstn (Z.to_nat 2) (rev (recorded "u1" five_transactions)))).
Proof.
  assert (H2 : (0 < 2)%Z) by lia.
  assert (Hne : recorded "u1" five_transactions <> [])
    by (vm_compute; discriminate).
  split; [exact H2|]. split; [exact Hne|].
  apply (proj1 (view_transactions_most_recent_first no_fmt as_is no_date
                  "u1" five_transactions) 2%Z H2 Hne).
Defined.

Lemma view_transactions_limit_zero_lists_all_witness :
  recorded "u1" five_transactions <> []
  /\ snd (view_transactions no_fmt as_is no_date "u1" 0 five_transactions)
     <> "No transactions found.".
Proof.
  assert (Hne : recorded "u1" five_transactions <> [])
    by (vm_compute; discriminate).
  split; [exact Hne|].
  apply (proj1 (proj2 (view_transactions_limit_zero_lists_all no_fmt as_is
                         no_date "u1" five_transactions)) Hne).
Defined.

Lemma progress_never_divides_by_zero_witness :
  0 < g_target_amount car_goal
  /\ progress_of car_goal
     = Return (g_current_amount car_goal / g_target_amount car_goal * 100).
Proof.
  assert (H : 0 < g_target_amount car_goal) by reflexivity.
  split; [exact H|].
  apply (proj1 (progress_never_divides_by_zero no_fmt no_fmt car_goal) H).
Defined.

Lemma unknown_user_gets_fresh_account_witness :
  account_of "u2" five_transactions = None
  /\ "u1" <> "u2"
  /\ after no_fmt no_fmt as_is as_is no_date (Ask (Transactions 10)) "u2"
       mid_month five_transactions
     = store_user "u2" new_account five_transactions
  /\ account_of "u1"
       (after no_fmt no_fmt as_is as_is no_date (Ask (Transactions 10)) "u2"
          mid_month five_transactions)
     = account_of "u1" five_transactions.
Proof.
  assert (Hnone : account_of "u2" five_transactions = None) by reflexivity.
  assert (Hne : "u1" <> "u2") by discriminate.
  pose proof (unknown_user_gets_fresh_account no_fmt no_fmt as_is as_is
                no_date (Ask (Transactions 10)) "u2" mid_month
                five_transactions) as [Hnew [_ Hframe]].
  split; [exact Hnone|]. split; [exact Hne|]. split.
  - apply (proj2 (proj2 (proj2 (proj2 (Hnew Hnone))))). reflexivity.
  - apply (Hframe "u1" Hne).
Defined.

(** ** More dictionary facts *)

Section DictMore.

Context {V : Type}.

Lemma set_set (k : string) (a b : V) (d : Dict.t V) :
  Dict.set k b (Dict.set k a d) = Dict.set k b d.
Proof.
  induction d as [|[k' v'] d IH]; simpl.
  - now rewrite String.eqb_refl.
  - destruct (String.eqb k k') eqn:E; simpl; rewrite E; [reflexivity|].
    now rewrite IH.
Qed.

Lemma set_get (k : string) (v : V) (d : Dict.t V) :
  Dict.get k d = Some v -> Dict.set k v d = d.
Proof.
  induction d as [|[k' v'] d IH]; simpl; [discriminate|].
  destruct (String.eqb k k') eqn:E.
  - now intros [= ->].
  - intros H. now rewrite IH.
Qed.

Lemma get_none_not_key (k : string) (d : Dict.t V) :
  Dict.get k d = None <-> ~ In k (map fst d).
Proof.
  induction d as [|[k' v'] d IH]; simpl.
  - tauto.
  - destruct (String.eqb_spec k k') as [->|Hne].
    + split; [discriminate | intros H; exfalso; apply H; now left].
    + rewrite IH. split.
      * intros H [E|Hin]; [now apply Hne | now apply H].
      * intros H Hin. apply H. now right.
Qed.

Lemma keys_set (k : string) (v : V) (d : Dict.t V) :
  map fst (Dict.set k v d)
  = match Dict.get k d with
    | Some _ => map fst d
    | None => (map fst d ++ [k])%list
    end.
Proof.
  induction d as [|[k' v'] d IH]; simpl; [reflexivity|].
  destruct (String.eqb k k') eqn:E; simpl; [reflexivity|].
  rewrite IH. now destruct (Dict.get k d).
Qed.

Lemma NoDup_keys_set (k : string) (v : V) (d : Dict.t V) :
  NoDup (map fst d) -> NoDup (map fst (Dict.set k v d)).
Proof.
  intros H. rewrite keys_set.
  destruct (Dict.get k d) eqn:E; [exact H|].
  apply get_none_not_key in E.
  apply NoDup_app; [exact H | repeat constructor; intros [] | ].
  intros x Hx [<-|[]]. contradiction.
Qed.

End DictMore.

(** ** Every call is a change to one account *)

Lemma current_get_user_data (user_id : string) (t : tracker) :
  current user_id t = snd (get_user_data user_id t).
Proof.
  unfold current, account_of, get_user_data.
  now destruct (Dict.get user_id (users (data t))).
Qed.

Lemma store_user_get_user_data (user_id : string) (a : account)
    (t : tracker) :
  data (store_user user_id a (fst (get_user_data user_id t)))
  = data (store_user user_id a t).
Proof.
  unfold get_user_data.
  destruct (Dict.get user_id (users (data t))); cbn [fst]; [reflexivity|].
  unfold store_user. cbn [data users]. now rewrite set_set.
Qed.

Lemma get_user_data_is_store (user_id : string) (t : tracker) :
  fst (get_user_data user_id t) = store_user user_id (current user_id t) t.
Proof.
  unfold current, account_of, get_user_data.
  destruct (Dict.get user_id (users (data t))) eqn:E; cbn [fst];
    [|reflexivity].
  unfold store_user. rewrite (set_get _ _ _ E). now destruct t as [[u] f].
Qed.

Section Effect.

Variable fmt2 : Q -> string.
Variable fmt1 : Q -> string.
Variable capitalize : string -> string.
Variable title : string -> string.
Variable strftime : datetime -> string.

(** Whatever the save does, the in-memory document after a call is the one
    before it with the account of the user replaced by the changed one. *)
Lemma after_data (c : call) (user_id : string) (now : datetime)
    (t : tracker) :
  data (after fmt2 fmt1 capitalize title strftime c user_id now t)
  = data (store_user user_id (effect c now (current user_id t)) t).
Proof.
  destruct c as [m o|q].
  - rewrite current_get_user_data, <- store_user_get_user_data.
    destruct m; cbn [after perform effect];
      unfold add_transaction, set_budget, add_savings_goal;
      destruct (get_user_data user_id t) as [t1 user_data]; cbn [fst snd];
      match goal with
      | |- context [save_data o ?s] =>
          pose proof (save_data_keeps_data o s) as Hs;
          destruct (save_data o s) as [t2 saved]
      end; exact Hs.
  - cbn [after effect]. rewrite ask_is_get_user_data.
    now rewrite get_user_data_is_store.
Qed.

Lemma after_account (c : call) (user_id : string) (now : datetime)
    (t : tracker) :
  account_of user_id (after fmt2 fmt1 capitalize title strftime c user_id now t)
  = Some (effect c now (current user_id t)).
Proof.
  unfold account_of. rewrite after_data. apply get_set_same.
Qed.

Lemma after_other (c : call) (user_id other : string) (now : datetime)
    (t : tracker) :
  other <> user_id ->
  account_of other (after fmt2 fmt1 capitalize title strftime c user_id now t)
  = account_of other t.
Proof.
  intros H. unfold account_of. rewrite after_data.
  now apply get_set_other.
Qed.

End Effect.

(** ** Consistency of the document *)

Lemma ids_from_one_snoc (ids : list Z) :
  ids_from_one ids ->
  ids_from_one (ids ++ [(Z.of_nat (List.length ids) + 1)%Z])%list.
Proof.
  unfold ids_from_one. intros H.
  rewrite length_app. cbn [List.length].
  rewrite Nat.add_1_r, seq_S, map_app, <- H. cbn [map].
  do 2 f_equal. lia.
Qed.

Lemma new_account_ok : account_ok new_account.
Proof.
  constructor; cbn; try reflexivity; constructor.
Qed.

Lemma effect_ok (c : call) (now : datetime) (a : account) :
  account_ok a -> account_ok (effect c now a).
Proof.
  intros [Hids Hgids Hzero Hkeys].
  destruct c as [[amount category ty description
                 |category amount
                 |name target_amount target_date] o|q];
    cbn [effect]; constructor; cbn [transactions savings_goals budgets
                                     total_savings]; try assumption.
  - rewrite map_app. cbn [map t_id].
    rewrite <- (length_map t_id). now apply ids_from_one_snoc.
  - now apply NoDup_keys_set.
  - rewrite map_app. cbn [map g_id].
    rewrite <- (length_map g_id). now apply ids_from_one_snoc.
  - apply Forall_app. split; [assumption|]. now repeat constructor.
Qed.

Lemma current_ok (user_id : string) (t : tracker) :
  consistent t -> account_ok (current user_id t).
Proof.
  intros [_ H]. unfold current.
  destruct (account_of user_id t) eqn:E; [now apply (H user_id)|].
  apply new_account_ok.
Qed.

Section Consistency.

Variable fmt2 : Q -> string.
Variable fmt1 : Q -> string.
Variable capitalize : string -> string.
Variable title : string -> string.
Variable strftime : datetime -> string.

Lemma after_consistent (c : call) (user_id : string) (now : datetime)
    (t : tracker) :
  consistent t ->
  consistent (after fmt2 fmt1 capitalize title strftime c user_id now t).
Proof.
  intros Hc. split.
  - rewrite after_data. cbn [store_user data users].
    apply NoDup_keys_set. exact (proj1 Hc).
  - intros other a Ha.
    destruct (string_dec other user_id) as [->|Hne].
    + rewrite after_account in Ha. injection Ha as <-.
      apply effect_ok. now apply current_ok.
    + rewrite after_other in Ha by assumption.
      now apply (proj2 Hc other).
Qed.

Lemma run_consistent (steps : list step) (t : tracker) :
  consistent t ->
  consistent (run fmt2 fmt1 capitalize title strftime steps t).
Proof.
  revert t. unfold run.
  induction steps as [|s steps IH]; intros t H; cbn [fold_left];
    [exact H|].
  apply IH. now apply after_consistent.
Qed.

Lemma empty_tracker_consistent : consistent empty_tracker.
Proof. split; [constructor | discriminate]. Qed.

End Consistency.

(** ** What holds after any run of calls *)

Lemma ids_from_one_NoDup (ids : list Z) : ids_from_one ids -> NoDup ids.
Proof.
  unfold ids_from_one. intros ->.
  generalize (seq_NoDup (List.length ids) 1).
  generalize (seq 1 (List.length ids)) as l.
  induction 1 as [|x l Hx _ IH]; cbn [map]; constructor; [|exact IH].
  rewrite in_map_iff. intros (y & Hy & Hin).
  apply Nat2Z.inj in Hy. now subst.
Qed.

Lemma recorded_current (user_id : string) (t : tracker) :
  recorded user_id t = transactions (current user_id t).
Proof. unfold recorded, current. now destruct (account_of user_id t). Qed.

Lemma goals_current (user_id : string) (t : tracker) :
  goals_of user_id t = savings_goals (current user_id t).
Proof. unfold goals_of, current. now destruct (account_of user_id t). Qed.

Lemma budgets_current (user_id : string) (t : tracker) :
  budgets_of user_id t = budgets (current user_id t).
Proof. unfold budgets_of, current. now destruct (account_of user_id t). Qed.

Lemma balance_current (user_id : string) (t : tracker) :
  balance user_id t = total_savings (current user_id t).
Proof. unfold balance, current. now destruct (account_of user_id t). Qed.

Section AfterAnyRun.

Variable fmt2 : Q -> string.
Variable fmt1 : Q -> string.
Variable capitalize : string -> string.
Variable title : string -> string.
Variable strftime : datetime -> string.

Abbreviation now_reached := (reached fmt2 fmt1 capitalize title strftime).

Lemma reached_current_ok (steps : list step) (user_id : string) :
  account_ok (current user_id (now_reached steps)).
Proof.
  apply current_ok. unfold reached.
  apply run_consistent, empty_tracker_consistent.
Qed.

(** X1. After any calls by any users, a user's transactions carry the ids
    1, 2, ..., n in the order they were recorded, and so do the goals: no
    id is used twice. *)
Theorem ids_count_from_one (steps : list step) (user_id : string) :
  map t_id (recorded user_id (now_reached steps))
  = map Z.of_nat (seq 1 (List.length (recorded user_id (now_reached steps))))
  /\ NoDup (map t_id (recorded user_id (now_reached steps)))
  /\ map g_id (goals_of user_id (now_reached steps))
     = map Z.of_nat (seq 1 (List.length (goals_of user_id (now_reached steps))))
  /\ NoDup (map g_id (goals_of user_id (now_reached steps))).
Proof.
  destruct (reached_current_ok steps user_id) as [Ht Hg _ _].
  rewrite recorded_current, goals_current.
  unfold ids_from_one in Ht, Hg. rewrite length_map in Ht, Hg.
  repeat split; try assumption; apply ids_from_one_NoDup;
    unfold ids_from_one; now rewrite length_map.
Qed.

(** X2. Only [add_transaction] moves a balance: after any calls by any
    users (transactions, budgets, goals, summaries and listings, saved or
    not), a user's balance is what the balance before them becomes by
    going through that user's [add_transaction] calls in call order,
    adding each income amount and subtracting each expense amount with one
    operation per call; every other call, and every call by another
    user, leaves it as it is. *)
Theorem only_add_transaction_moves_the_balance (steps : list step)
    (user_id : string) (t : tracker) :
  balance user_id (run fmt2 fmt1 capitalize title strftime steps t)
  = fold_left (moved_by user_id) steps (balance user_id t).
Proof.
  revert t. unfold run.
  induction steps as [|s steps IH]; intros t; cbn [fold_left];
    [reflexivity|].
  rewrite IH. f_equal. unfold run_step, moved_by.
  destruct (String.eqb_spec (s_user s) user_id) as [E|Hne].
  - rewrite E. unfold balance at 1. rewrite after_account.
    rewrite balance_current.
    now destruct (s_call s) as [[amount category ty description| |] o|q].
  - unfold balance at 1. rewrite after_other by (intros E; now apply Hne).
    now destruct (s_call s) as [[amount category ty description| |] o|q].
Qed.

(** X3. No call puts money into a goal: after any calls, every goal has
    saved amount 0, and the progress shown for it is 0 percent. *)
Theorem goals_are_never_funded (steps : list step) (user_id : string)
    (g : goal) :
  In g (goals_of user_id (now_reached steps)) ->
  g_current_amount g = 0
  /\ progress_of g = Return (percentage g)
  /\ percentage g == 0.
Proof.
  rewrite goals_current. intros Hin.
  pose proof (ok_goals_unfunded _ (reached_current_ok steps user_id)) as H.
  rewrite Forall_forall in H. specialize (H g Hin).
  split; [exact H|]. split; [apply progress_of_percentage|].
  unfold percentage. rewrite H.
  destruct (Qltb 0 (g_target_amount g)); [|reflexivity].
  unfold Qdiv. ring.
Qed.

(** X4. After any calls, no user id has two accounts and no category has
    two budgets. *)
Theorem one_account_per_user_one_budget_per_category (steps : list step)
    (user_id : string) :
  NoDup (map fst (users (data (now_reached steps))))
  /\ NoDup (map fst (budgets_of user_id (now_reached steps))).
Proof.
  split.
  - unfold reached. apply run_consistent, empty_tracker_consistent.
  - rewrite budgets_current.
    apply (ok_budget_keys _ (reached_current_ok steps user_id)).
Qed.

End AfterAnyRun.

(** ** Budgets *)

Lemma one_entry_per_key {V : Type} (k : string) (d : Dict.t V) :
  NoDup (map fst d) -> In k (map fst d) ->
  List.length (filter (fun item => String.eqb (fst item) k) d) = 1%nat.
Proof.
  induction d as [|[k' v'] d IH]; cbn [map fst filter]; intros Hnd Hin;
    [contradiction|].
  inversion Hnd as [|? ? Hnot Hnd']; subst.
  destruct (String.eqb_spec k' k) as [->|Hne].
  - cbn [List.length]. f_equal.
    clear IH Hin Hnd Hnd'.
    induction d as [|[k0 v0] d IH]; [reflexivity|].
    cbn [map fst filter] in *.
    destruct (String.eqb_spec k0 k) as [->|_].
    + exfalso. apply Hnot. now left.
    + apply IH. intros H. apply Hnot. now right.
  - apply IH; [assumption|]. destruct Hin as [E|Hin]; [contradiction|].
    exact Hin.
Qed.

Lemma get_some_key {V : Type} (k : string) (v : V) (d : Dict.t V) :
  Dict.get k d = Some v -> In k (map fst d).
Proof.
  intros H. destruct (in_dec string_dec k (map fst d)) as [Hin|Hnot];
    [exact Hin|].
  apply get_none_not_key in Hnot. congruence.
Qed.

Section Budgets.

Variable fmt2 : Q -> string.

Lemma set_budget_budgets (user_id category : string) (amount : Q)
    (now : datetime) (o : io) (t : tracker) :
  budgets_of user_id (fst (set_budget fmt2 user_id category amount now o t))
  = Dict.set category {| b_amount := amount; b_set_date := date_of now |}
      (budgets_of user_id t).
Proof.
  pose proof (after_account fmt2 fmt2 (fun s => s) (fun s => s)
                (fun _ => "") (Mutate (SetBudget category amount) o)
                user_id now t) as H.
  cbn [after perform effect] in H.
  unfold budgets_of at 1. rewrite H. cbn [budgets].
  now rewrite budgets_current.
Qed.

(** X5. Setting a budget for a category twice, whatever the saves do,
    leaves what setting the second alone leaves: the category has the
    second amount and date, the budgets of the other categories are as
    before, and when the categories were distinct before, the category has
    exactly one entry. *)
Theorem set_budget_twice_keeps_the_last (user_id category : string)
    (x y : Q) (now1 now2 : datetime) (o1 o2 : io) (t : tracker) :
  NoDup (map fst (budgets_of user_id t)) ->
  let t2 :=
    fst (set_budget fmt2 user_id category y now2 o2
           (fst (set_budget fmt2 user_id category x now1 o1 t))) in
  budgets_of user_id t2
  = budgets_of user_id (fst (set_budget fmt2 user_id category y now2 o2 t))
  /\ Dict.get category (budgets_of user_id t2)
     = Some {| b_amount := y; b_set_date := date_of now2 |}
  /\ List.length
       (filter (fun item => String.eqb (fst item) category)
          (budgets_of user_id t2)) = 1%nat
  /\ (forall other,
        other <> category ->
        Dict.get other (budgets_of user_id t2)
        = Dict.get other (budgets_of user_id t)).
Proof.
  intros Hnd t2. subst t2. rewrite !set_budget_budgets, set_set.
  split; [reflexivity|]. split; [apply get_set_same|]. split.
  - apply one_entry_per_key; [now apply NoDup_keys_set|].
    apply (get_some_key _ _ _ (get_set_same _ _ _)).
  - intros other Hne. now apply get_set_other.
Qed.

End Budgets.

(** ** The transaction log *)

Section Log.

Variable fmt2 : Q -> string.
Variable fmt1 : Q -> string.
Variable capitalize : string -> string.
Variable title : string -> string.
Variable strftime : datetime -> string.

Lemma run_step_recorded (user_id : string) (s : step) (t : tracker) :
  exists new,
    recorded user_id (run_step fmt2 fmt1 capitalize title strftime t s)
    = (recorded user_id t ++ new)%list
    /\ map fields new = recorded_by user_id s.
Proof.
  unfold run_step, recorded_by.
  destruct (String.eqb_spec (s_user s) user_id) as [E|Hne].
  - rewrite E. unfold recorded at 1. rewrite after_account.
    rewrite recorded_current.
    destruct (s_call s) as [[amount category ty description| |] o|q];
      cbn [effect transactions].
    + eexists. split; [reflexivity|]. reflexivity.
    + exists []. now rewrite app_nil_r.
    + exists []. now rewrite app_nil_r.
    + exists []. now rewrite app_nil_r.
  - exists []. rewrite app_nil_r. split.
    + unfold recorded. rewrite after_other; [reflexivity|].
      intros E. apply Hne. now symmetry.
    + now destruct (s_call s) as [[| |] o|q].
Qed.

(** X6. A run of calls only appends to a user's log: the transactions
    recorded before are still there, unchanged and first, and after them
    comes one transaction for each [add_transaction] call by that user, in
    call order, with the call's time, amount, category, type and
    description, whether or not the call's save succeeded.  Calls by other
    users, budgets, goals, summaries and listings add nothing. *)
Theorem log_only_grows (user_id : string) (steps : list step)
    (t : tracker) :
  exists new,
    recorded user_id (run fmt2 fmt1 capitalize title strftime steps t)
    = (recorded user_id t ++ new)%list
    /\ map fields new = flat_map (recorded_by user_id) steps.
Proof.
  revert t. unfold run.
  induction steps as [|s steps IH]; intros t; cbn [fold_left flat_map].
  - exists []. now rewrite app_nil_r.
  - destruct (run_step_recorded user_id s t) as (new1 & H1 & F1).
    destruct (IH (run_step fmt2 fmt1 capitalize title strftime t s))
      as (new2 & H2 & F2).
    exists (new1 ++ new2)%list. split.
    + now rewrite H2, H1, app_assoc.
    + now rewrite map_app, F1, F2.
Qed.

(** X7. A summary or a listing asked by a user who has an account leaves
    the tracker, document and data file, exactly as it was. *)
Theorem asking_changes_nothing_for_a_known_user (q : query)
    (user_id : string) (now : datetime) (t : tracker) :
  account_of user_id t <> None ->
  ask fmt2 fmt1 title strftime q user_id now t = t.
Proof.
  intros H. rewrite ask_is_get_user_data.
  destruct (account_of user_id t) as [a|] eqn:E; [|contradiction].
  now rewrite (get_user_data_known _ _ _ E).
Qed.

End Log.

(** ** The breakdown of expenses by category *)

Lemma get_default_set (k k' : string) (v : Q) (d : Dict.t Q) :
  Dict.get_default k' 0 (Dict.set k v d)
  = if String.eqb k' k then v else Dict.get_default k' 0 d.
Proof.
  unfold Dict.get_default.
  destruct (String.eqb_spec k' k) as [->|Hne].
  - now rewrite get_set_same.
  - now rewrite get_set_other.
Qed.

Lemma by_category_from_get (category : string) (acc : Dict.t Q)
    (txs : list transaction) :
  Dict.get_default category 0 (by_category_from acc txs)
  = fold_left Qplus (category_expenses category txs)
      (Dict.get_default category 0 acc).
Proof.
  revert acc. unfold by_category_from, category_expenses.
  induction txs as [|x txs IH]; intros acc; cbn [fold_left filter map];
    [reflexivity|].
  rewrite IH. destruct (String.eqb (t_type x) "expense"); cbn [andb];
    [|reflexivity].
  rewrite get_default_set, (String.eqb_sym (t_category x) category).
  now destruct (String.eqb_spec category (t_category x)) as [->|Hne].
Qed.

Lemma by_category_from_keys (acc : Dict.t Q) (txs : list transaction) :
  NoDup (map fst acc) -> NoDup (map fst (by_category_from acc txs)).
Proof.
  revert acc. unfold by_category_from.
  induction txs as [|x txs IH]; intros acc H; cbn [fold_left]; [exact H|].
  apply IH. destruct (String.eqb (t_type x) "expense"); [|exact H].
  now apply NoDup_keys_set.
Qed.

Lemma by_category_from_present (category : string) (acc : Dict.t Q)
    (txs : list transaction) :
  In category (map fst (by_category_from acc txs))
  <-> In category (map fst acc)
      \/ exists x, In x txs /\ t_type x = "expense"
                   /\ t_category x = category.
Proof.
  revert acc. unfold by_category_from.
  induction txs as [|x txs IH]; intros acc; cbn [fold_left].
  - split; [now left | intros [H|(x & [] & _)]; exact H].
  - rewrite IH. clear IH.
    destruct (String.eqb_spec (t_type x) "expense") as [Hty|Hty].
    + rewrite keys_set.
      assert (Hkey : In category
                       match Dict.get (t_category x) acc with
                       | Some _ => map fst acc
                       | None => (map fst acc ++ [t_category x])%list
                       end
                     <-> In category (map fst acc)
                         \/ t_category x = category).
      { destruct (Dict.get (t_category x) acc) eqn:E.
        - split; [now left|]. intros [H|<-]; [exact H|].
          now apply (get_some_key _ _ _ E).
        - rewrite in_app_iff. cbn [In]. tauto. }
      rewrite Hkey. split.
      * intros [[H|H]|(y & Hy & Hr)]; [now left| |].
        -- right. exists x. cbn [In]. auto.
        -- right. exists y. cbn [In]. auto.
      * intros [H|(y & [<-|Hy] & Hty' & Hc)]; [now left; left| |].
        -- left. now right.
        -- right. now exists y.
    + split.
      * intros [H|(y & Hy & Hr)]; [now left|].
        right. exists y. cbn [In]. auto.
      * intros [H|(y & [<-|Hy] & Hty' & Hc)]; [now left|contradiction|].
        right. now exists y.
Qed.

(** X8. In the breakdown by category, the amount of a category is what
    0 becomes by adding the expenses of that category one at a time, in
    the order of the log; a category is listed exactly when some expense
    has it; and no category is listed twice. *)
Theorem expenses_by_category_lists_each_category_once
    (txs : list transaction) :
  (forall category,
     Dict.get_default category 0 (expenses_by_category txs)
     = fold_left Qplus (category_expenses category txs) 0)
  /\ (forall category,
        In category (map fst (expenses_by_category txs))
        <-> exists x, In x txs /\ t_type x = "expense"
                      /\ t_category x = category)
  /\ NoDup (map fst (expenses_by_category txs)).
Proof.
  change (expenses_by_category txs) with (by_category_from Dict.empty txs).
  split; [|split].
  - intros category. now rewrite by_category_from_get.
  - intros category. rewrite by_category_from_present. cbn [Dict.empty map In].
    tauto.
  - apply by_category_from_keys. constructor.
Qed.

(** ** The ranges of the periods *)

Lemma minus_one_day_first (y m : Z) :
  (1 < m)%Z ->
  minus_one_day (mk_datetime y m 1 0 0 0)
  = Return (mk_datetime y (m - 1) (days_in_month y (m - 1)) 0 0 0).
Proof.
  intros H. unfold minus_one_day. cbn [day month year hour minute second].
  replace (1 <? 1)%Z with false by reflexivity.
  replace (1 <? m)%Z with true by (symmetry; apply Z.ltb_lt; lia).
  reflexivity.
Qed.

Lemma minus_one_day_new_year (y : Z) :
  (MINYEAR < y)%Z ->
  minus_one_day (mk_datetime y 1 1 0 0 0)
  = Return (mk_datetime (y - 1) 12 31 0 0 0).
Proof.
  intros H. unfold minus_one_day. cbn [day month year hour minute second].
  replace (1 <? 1)%Z with false by reflexivity.
  replace (MINYEAR <? y)%Z with true by (symmetry; apply Z.ltb_lt; lia).
  reflexivity.
Qed.

(** X9. For a valid clock, the range of [current_month] runs from
    00:00:00 on the first day of the clock's month to 00:00:00 on its last
    day (28, 29, 30 or 31 by month and leap year), December included;
    only in December of the year 9999 there is no range: the call raises
    [ValueError]. *)
Theorem current_month_range (now : datetime) :
  valid_datetime now = true ->
  (month now = 12%Z /\ year now = MAXYEAR ->
   period_range "current_month" now = Raise ValueError)
  /\ (~ (month now = 12%Z /\ year now = MAXYEAR) ->
      period_range "current_month" now
      = Return (mk_datetime (year now) (month now) 1 0 0 0,
                mk_datetime (year now) (month now)
                  (days_in_month (year now) (month now)) 0 0 0)).
Proof.
  intros Hv. apply valid_datetime_bounds in Hv.
  destruct Hv as (Hy & Hm & _).
  unfold period_range. cbn [String.eqb Ascii.eqb Bool.eqb].
  rewrite datetime_new_first by assumption. cbn [bind].
  split.
  - intros [Hm12 Hy9]. rewrite Hm12, Hy9. reflexivity.
  - intros Hnot. destruct (Z.ltb_spec (month now) 12) as [Hlt|Hge].
    + rewrite datetime_new_first by lia. cbn [bind].
      rewrite minus_one_day_first by lia. cbn [bind].
      now replace (month now + 1 - 1)%Z with (month now) by lia.
    + assert (Hm12 : month now = 12%Z) by lia.
      assert (Hy9 : (year now < MAXYEAR)%Z) by lia.
      rewrite datetime_new_first by (unfold MINYEAR, MAXYEAR in *; lia).
      cbn [bind].
      rewrite minus_one_day_new_year by (unfold MINYEAR in *; lia).
      cbn [bind]. rewrite Hm12.
      now replace (year now + 1 - 1)%Z with (year now) by lia.
Qed.

(** X10. For a valid clock, the range of [last_month] runs from 00:00:00
    on the first day of the month before the clock's to 00:00:00 on the
    last day of that month; in January that month is December of the year
    before; only in January of the year 1 there is no range: the call
    raises [ValueError]. *)
Theorem last_month_range (now : datetime) :
  valid_datetime now = true ->
  (month now = 1%Z /\ year now = MINYEAR ->
   period_range "last_month" now = Raise ValueError)
  /\ (~ (month now = 1%Z /\ year now = MINYEAR) ->
      period_range "last_month" now
      = Return (mk_datetime (fst (previous_month now))
                  (snd (previous_month now)) 1 0 0 0,
                mk_datetime (fst (previous_month now))
                  (snd (previous_month now))
                  (days_in_month (fst (previous_month now))
                     (snd (previous_month now))) 0 0 0)).
Proof.
  intros Hv. apply valid_datetime_bounds in Hv.
  destruct Hv as (Hy & Hm & _).
  unfold period_range, previous_month.
  cbn [String.eqb Ascii.eqb Bool.eqb].
  split.
  - intros [Hm1 Hy1]. rewrite Hm1, Hy1. reflexivity.
  - intros Hnot. destruct (Z.ltb_spec 1 (month now)) as [Hlt|Hge];
      cbn [fst snd].
    + rewrite !datetime_new_first by lia. cbn [bind].
      now rewrite minus_one_day_first by lia.
    + assert (Hm1 : month now = 1%Z) by lia.
      assert (Hy1 : (MINYEAR < year now)%Z) by lia.
      rewrite !datetime_new_first by (unfold MINYEAR, MAXYEAR in *; lia).
      cbn [bind]. rewrite Hm1.
      now rewrite minus_one_day_new_year by assumption.
Qed.

Lemma dt_leb_same_month (a b : datetime) :
  year a = year b -> month a = month b ->
  dt_leb a b
  = match (day a ?= day b)%Z with
    | Lt => true
    | Gt => false
    | Eq =>
        match lex (hour a ?= hour b)%Z
                (lex (minute a ?= minute b)%Z (second a ?= second b)%Z)
        with
        | Gt => false
        | _ => true
        end
    end.
Proof.
  intros Hy Hm. unfold dt_leb, dt_compare.
  rewrite Hy, Hm, !Z.compare_refl. cbn [lex].
  now destruct (day a ?= day b)%Z.
Qed.

(** X11. A transaction dated in the clock's month is counted by the
    summary of [current_month] exactly when it is dated before the last
    day of the month, or on the last day at 00:00:00: what is recorded
    later on the last day is left out. *)
Theorem current_month_leaves_out_the_last_day (now : datetime)
    (x : transaction) :
  valid_datetime now = true ->
  valid_datetime (t_date x) = true ->
  ~ (month now = 12%Z /\ year now = MAXYEAR) ->
  year (t_date x) = year now ->
  month (t_date x) = month now ->
  exists range,
    period_range "current_month" now = Return range
    /\ (in_range range x = true
        <-> (day (t_date x) < days_in_month (year now) (month now))%Z
            \/ (hour (t_date x) = 0 /\ minute (t_date x) = 0
                /\ second (t_date x) = 0)%Z).
Proof.
  intros Hv Hx Hnot Hy Hm.
  destruct (current_month_range now Hv) as [_ Hr].
  eexists. split; [exact (Hr Hnot)|].
  apply valid_datetime_bounds in Hx.
  destruct Hx as (_ & _ & Hd & Hh & Hmi & Hs).
  rewrite Hy, Hm in Hd.
  unfold in_range. cbn [fst snd].
  rewrite (dt_leb_same_month _ (t_date x)) by (cbn; congruence).
  rewrite (dt_leb_same_month (t_date x)) by (cbn; congruence).
  cbn [day hour minute second].
  repeat match goal with
         | |- context [(?a ?= ?b)%Z] => destruct (Z.compare_spec a b)
         end;
    cbn [andb lex]; try lia;
    (split; intros; [try discriminate; try lia; auto | ]);
    try reflexivity; try lia;
    repeat match goal with
           | H : _ \/ _ |- _ => destruct H
           | H : _ /\ _ |- _ => destruct H
           end; try lia; try discriminate.
Qed.

(** ** Listings with a negative limit *)

Lemma slice_from_positive {A : Type} (k : Z) (l : list A) :
  (0 <= k)%Z -> slice_from k l = skipn (Z.to_nat k) l.
Proof.
  intros H. unfold slice_from.
  replace (k <? 0)%Z with false by (symmetry; apply Z.ltb_ge; lia).
  destruct (Z.min_spec k (Z.of_nat (List.length l))) as [[_ ->]|[Hle ->]];
    [reflexivity|].
  rewrite Nat2Z.id, skipn_all.
  symmetry. apply skipn_all2. lia.
Qed.

Section NegativeLimit.

Variable fmt2 : Q -> string.
Variable title : string -> string.
Variable strftime : datetime -> string.

(** X13. A negative limit -k does not list the last transactions: it
    drops the k oldest and lists all the others, the most recent first;
    when the account has k transactions or fewer, the answer is
    "No transactions found." although there may be some. *)
Theorem view_transactions_negative_limit (user_id : string) (limit : Z)
    (t : tracker) :
  (limit < 0)%Z ->
  ((Z.of_nat (List.length (recorded user_id t)) <= - limit)%Z ->
   snd (view_transactions fmt2 title strftime user_id limit t)
   = "No transactions found.")
  /\ ((- limit < Z.of_nat (List.length (recorded user_id t)))%Z ->
      snd (view_transactions fmt2 title strftime user_id limit t)
      = ("📋 Recent Transactions:" ++ nl ++ nl)
        ++ join_text
             (map (transaction_text fmt2 title strftime)
                (rev (skipn (Z.to_nat (- limit)) (recorded user_id t))))).
Proof.
  intros Hneg. rewrite view_transactions_result.
  rewrite slice_from_positive by lia.
  split; intros H.
  - rewrite skipn_all2 by lia. reflexivity.
  - destruct (skipn (Z.to_nat (- limit)) (recorded user_id t)) eqn:E;
      [|reflexivity].
    exfalso. revert E. apply skipn_nonempty. lia.
Qed.

End NegativeLimit.

(** ** The progress bar *)



Section ProgressBar.

Variable fmt1 : Q -> string.


End ProgressBar.

(** ** Strings of the front end *)

Lemma prefix_app (p s : string) : String.prefix p (p ++ s) = true.
Proof.
  induction p as [|a p IH]; cbn; [now destruct s|].
  destruct (ascii_dec a a) as [_|Hne]; [exact IH | now contradiction Hne].
Qed.

Lemma replace_from_skip (old new p s : string) :
  replace_from old new (String.length p) (p ++ s) = replace_from old new 0 s.
Proof. induction p as [|a p IH]; cbn; [reflexivity | exact IH]. Qed.

Lemma replace_from_absent (old' new s : string) (a : ascii) :
  contains s (String a old') = false ->
  replace_from (String a old') new 0 s = s.
Proof.
  induction s as [|x s IH]; [reflexivity|].
  cbn [contains]. intros H. apply orb_false_iff in H. destruct H as [Hp Hc].
  cbn [replace_from]. rewrite Hp. now rewrite IH.
Qed.

(** Taking a prefix off with [replace] gives back what followed it, when
    what followed does not contain the prefix. *)
Lemma replace_prefix (prefix s : string) :
  prefix <> "" -> contains s prefix = false ->
  startswith (prefix ++ s) prefix = true
  /\ replace (prefix ++ s) prefix "" = s.
Proof.
  intros Hne Hc. split; [apply prefix_app|].
  destruct prefix as [|a old']; [contradiction|].
  unfold replace. cbn [append replace_from].
  change (String a (old' ++ s)) with (String a old' ++ s).
  rewrite prefix_app. cbn [append].
  now rewrite replace_from_skip, replace_from_absent.
Qed.

(** ** Buttons *)

(** X15. Pressing a category button made by [add_income], [add_expense]
    or [set_budget] makes that very category the pending income, expense
    or budget, as long as the category does not contain the button's own
    prefix, as none of the fourteen built-in categories does; the tracker
    and the other pending entries are untouched. *)
Theorem category_button_sets_pending (user_id category : string)
    (t : tracker) (s : session) :
  (contains category "income_" = false ->
   button_handler user_id ("income_" ++ category) t s
   = (t,
      {| pending_income := Some category;
         pending_expense := pending_expense s;
         pending_budget := pending_budget s;
         pending_goal := pending_goal s |},
      [say ("💵 Adding " ++ category ++ " income" ++ nl ++ nl
            ++ "Please enter the amount:")]))
  /\ (contains category "expense_" = false ->
      button_handler user_id ("expense_" ++ category) t s
      = (t,
         {| pending_income := pending_income s;
            pending_expense := Some category;
            pending_budget := pending_budget s;
            pending_goal := pending_goal s |},
         [say ("💸 Adding " ++ category ++ " expense" ++ nl ++ nl
               ++ "Please enter the amount:")]))
  /\ (contains category "budget_" = false ->
      button_handler user_id ("budget_" ++ category) t s
      = (t,
         {| pending_income := pending_income s;
            pending_expense := pending_expense s;
            pending_budget := Some category;
            pending_goal := pending_goal s |},
         [say ("📊 Setting budget for " ++ category ++ nl ++ nl
               ++ "Please enter the budget amount:")]))
  /\ Forall (fun b => k_callback_data b = "income_" ++ k_label b
                      /\ contains (k_label b) "income_" = false)
       (r_keyboard add_income)
  /\ Forall (fun b => k_callback_data b = "expense_" ++ k_label b
                      /\ contains (k_label b) "expense_" = false)
       (r_keyboard add_expense)
  /\ Forall (fun b => k_callback_data b = "budget_" ++ k_label b
                      /\ contains (k_label b) "budget_" = false)
       (r_keyboard set_budget_command).
Proof.
  split; [|split; [|split; [|split; [|split]]]].
  - intros H. unfold button_handler.
    destruct (replace_prefix "income_" category) as [Hs Hr];
      [discriminate | exact H |].
    now rewrite Hs, Hr.
  - intros H. unfold button_handler.
    destruct (replace_prefix "expense_" category) as [Hs Hr];
      [discriminate | exact H |].
    replace (startswith ("expense_" ++ category) "income_") with false
      by reflexivity.
    now rewrite Hs, Hr.
  - intros H. unfold button_handler.
    destruct (replace_prefix "budget_" category) as [Hs Hr];
      [discriminate | exact H |].
    replace (startswith ("budget_" ++ category) "income_") with false
      by reflexivity.
    replace (startswith ("budget_" ++ category) "expense_") with false
      by reflexivity.
    now rewrite Hs, Hr.
  - repeat constructor.
  - repeat constructor.
  - repeat constructor.
Qed.

(** ** Typed messages *)

Section Messages.

Variable fmt2 : Q -> string.
Variable capitalize : string -> string.
Variable float_of : string -> option Q.
Variable str_exn : exn -> string.

Lemma add_transaction_result (user_id : string) (amount : Q)
    (category transaction_type description : string) (now : datetime)
    (o : io) (t : tracker) :
  snd (add_transaction fmt2 capitalize user_id amount category
         transaction_type description now o t)
  = match o with
    | WriteOk =>
        Return ("✅ " ++ capitalize transaction_type ++ " of $"
                ++ fmt2 amount ++ " added successfully!")
    | _ => Raise OSError
    end.
Proof.
  unfold add_transaction.
  destruct (get_user_data user_id t) as [t1 user_data].
  now destruct o.
Qed.

Lemma set_budget_result (user_id category : string) (amount : Q)
    (now : datetime) (o : io) (t : tracker) :
  snd (set_budget fmt2 user_id category amount now o t)
  = match o with
    | WriteOk =>
        Return ("✅ Budget of $" ++ fmt2 amount ++ " set for " ++ category)
    | _ => Raise OSError
    end.
Proof.
  unfold set_budget.
  destruct (get_user_data user_id t) as [t1 user_data].
  now destruct o.
Qed.

Lemma add_savings_goal_result (user_id name : string) (target_amount : Q)
    (target_date : string) (now : datetime) (o : io) (t : tracker) :
  snd (add_savings_goal user_id name target_amount target_date now o t)
  = match o with
    | WriteOk =>
        Return ("✅ Savings goal '" ++ name ++ "' added successfully!")
    | _ => Raise OSError
    end.
Proof.
  unfold add_savings_goal.
  destruct (get_user_data user_id t) as [t1 user_data].
  now destruct o.
Qed.

(** What [handle_message] does with a number while an income is pending. *)
Lemma handle_message_income (user_id text category : string) (amount : Q)
    (now : datetime) (o : io) (t : tracker) (s : session) :
  pending_income s = Some category ->
  float_of text = Some amount ->
  handle_message fmt2 capitalize float_of str_exn user_id text now o t s
  = (fst (add_transaction fmt2 capitalize user_id amount category "income"
            "" now o t),
     match o with
     | WriteOk =>
         {| pending_income := None;
            pending_expense := pending_expense s;
            pending_budget := pending_budget s;
            pending_goal := pending_goal s |}
     | _ => s
     end,
     [match o with
      | WriteOk =>
          say ("✅ " ++ capitalize "income" ++ " of $" ++ fmt2 amount
               ++ " added successfully!")
      | _ => say ("❌ An error occurred: " ++ str_exn OSError)
      end]).
Proof.
  intros Hp Hf. unfold handle_message. rewrite Hp, Hf.
  pose proof (add_transaction_result user_id amount category "income" ""
                now o t) as Hr.
  destruct (add_transaction fmt2 capitalize user_id amount category "income"
              "" now o t) as [t' r].
  cbn [fst snd] in *. subst r. now destruct o.
Qed.

Lemma handle_message_expense (user_id text category : string) (amount : Q)
    (now : datetime) (o : io) (t : tracker) (s : session) :
  pending_income s = None ->
  pending_expense s = Some category ->
  float_of text = Some amount ->
  handle_message fmt2 capitalize float_of str_exn user_id text now o t s
  = (fst (add_transaction fmt2 capitalize user_id amount category "expense"
            "" now o t),
     match o with
     | WriteOk =>
         {| pending_income := pending_income s;
            pending_expense := None;
            pending_budget := pending_budget s;
            pending_goal := pending_goal s |}
     | _ => s
     end,
     [match o with
      | WriteOk =>
          say ("✅ " ++ capitalize "expense" ++ " of $" ++ fmt2 amount
               ++ " added successfully!")
      | _ => say ("❌ An error occurred: " ++ str_exn OSError)
      end]).
Proof.
  intros Hi Hp Hf. unfold handle_message. rewrite Hi, Hp, Hf.
  pose proof (add_transaction_result user_id amount category "expense" ""
                now o t) as Hr.
  destruct (add_transaction fmt2 capitalize user_id amount category "expense"
              "" now o t) as [t' r].
  cbn [fst snd] in *. subst r. now destruct o.
Qed.

Lemma handle_message_budget (user_id text category : string) (amount : Q)
    (now : datetime) (o : io) (t : tracker) (s : session) :
  pending_income s = None ->
  pending_expense s = None ->
  pending_budget s = Some category ->
  float_of text = Some amount ->
  handle_message fmt2 capitalize float_of str_exn user_id text now o t s
  = (fst (set_budget fmt2 user_id category amount now o t),
     match o with
     | WriteOk =>
         {| pending_income := pending_income s;
            pending_expense := pending_expense s;
            pending_budget := None;
            pending_goal := pending_goal s |}
     | _ => s
     end,
     [match o with
      | WriteOk =>
          say ("✅ Budget of $" ++ fmt2 amount ++ " set for " ++ category)
      | _ => say ("❌ An error occurred: " ++ str_exn OSError)
      end]).
Proof.
  intros Hi He Hp Hf. unfold handle_message. rewrite Hi, He, Hp, Hf.
  pose proof (set_budget_result user_id category amount now o t) as Hr.
  destruct (set_budget fmt2 user_id category amount now o t) as [t' r].
  cbn [fst snd] in *. subst r. now destruct o.
Qed.

End Messages.

(** ** Conversations *)

Lemma string_of_Z_not_goal (n : Z) : string_of_Z n <> "goal".
Proof.
  unfold string_of_Z.
  destruct (Z.to_int n) as [u|u]; destruct u; cbn; discriminate.
Qed.

Lemma button_handler_income (user_id category : string) (t : tracker)
    (s : session) :
  contains category "income_" = false ->
  button_handler user_id ("income_" ++ category) t s
  = (t,
     {| pending_income := Some category;
        pending_expense := pending_expense s;
        pending_budget := pending_budget s;
        pending_goal := pending_goal s |},
     [say ("💵 Adding " ++ category ++ " income" ++ nl ++ nl
           ++ "Please enter the amount:")]).
Proof.
  intros H. unfold button_handler.
  destruct (replace_prefix "income_" category) as [Hs Hr];
    [discriminate | exact H |].
  now rewrite Hs, Hr.
Qed.

Lemma button_handler_expense (user_id category : string) (t : tracker)
    (s : session) :
  contains category "expense_" = false ->
  button_handler user_id ("expense_" ++ category) t s
  = (t,
     {| pending_income := pending_income s;
        pending_expense := Some category;
        pending_budget := pending_budget s;
        pending_goal := pending_goal s |},
     [say ("💸 Adding " ++ category ++ " expense" ++ nl ++ nl
           ++ "Please enter the amount:")]).
Proof.
  intros H. unfold button_handler.
  destruct (replace_prefix "expense_" category) as [Hs Hr];
    [discriminate | exact H |].
  replace (startswith ("expense_" ++ category) "income_") with false
    by reflexivity.
  now rewrite Hs, Hr.
Qed.

Section Conversations.

Variable fmt2 : Q -> string.
Variable capitalize : string -> string.
Variable float_of : string -> option Q.
Variable str_exn : exn -> string.

Abbreviation typed := (handle_message fmt2 capitalize float_of str_exn).
Abbreviation add := (add_transaction fmt2 capitalize).

Lemma add_recorded (user_id : string) (amount : Q)
    (category transaction_type description : string) (now : datetime)
    (o : io) (t : tracker) :
  recorded user_id
    (fst (add user_id amount category transaction_type description now o t))
  = (recorded user_id t ++
     [ {| t_id := Z.of_nat (List.length (recorded user_id t)) + 1;
          t_date := now;
          t_amount := amount;
          t_category := category;
          t_type := transaction_type;
          t_description := description |} ])%list.
Proof. unfold recorded at 1. now rewrite add_transaction_account. Qed.

Lemma add_balance (user_id : string) (amount : Q)
    (category transaction_type description : string) (now : datetime)
    (o : io) (t : tracker) :
  balance user_id
    (fst (add user_id amount category transaction_type description now o t))
  = if String.eqb transaction_type "income"
    then balance user_id t + amount
    else if String.eqb transaction_type "expense"
    then balance user_id t - amount
    else balance user_id t.
Proof. unfold balance at 1. now rewrite add_transaction_account. Qed.

(** X16. Pressing an income button and then typing a number records, when
    the save succeeds, one income of that amount in that category at that
    time with an empty description, adds the amount to the balance, clears
    the pending income and answers with the confirmation.  Any number is
    taken: the amount is not checked to be positive. *)
Theorem typed_income_is_recorded (user_id category text : string)
    (amount : Q) (now : datetime) (t : tracker) (s : session) :
  contains category "income_" = false ->
  float_of text = Some amount ->
  let pressed := button_handler user_id ("income_" ++ category) t s in
  let answered :=
    typed user_id text now WriteOk (fst (fst pressed)) (snd (fst pressed)) in
  snd (fst answered)
  = {| pending_income := None;
       pending_expense := pending_expense s;
       pending_budget := pending_budget s;
       pending_goal := pending_goal s |}
  /\ snd answered
     = [say ("✅ " ++ capitalize "income" ++ " of $" ++ fmt2 amount
             ++ " added successfully!")]
  /\ recorded user_id (fst (fst answered))
     = (recorded user_id t ++
        [ {| t_id := Z.of_nat (List.length (recorded user_id t)) + 1;
             t_date := now;
             t_amount := amount;
             t_category := category;
             t_type := "income";
             t_description := "" |} ])%list
  /\ balance user_id (fst (fst answered)) = balance user_id t + amount
  /\ data_file (fst (fst answered))
     = Present (Dumped (data (fst (fst answered)))).
Proof.
  intros Hc Hf pressed answered. subst answered pressed.
  rewrite button_handler_income by exact Hc.
  cbn [fst snd].
  rewrite (handle_message_income fmt2 capitalize float_of str_exn user_id
             text category amount now WriteOk t) by (reflexivity || exact Hf).
  cbn [fst snd]. rewrite add_recorded, add_balance.
  repeat split.
  unfold add_transaction.
  destruct (get_user_data user_id t) as [t1 user_data]. reflexivity.
Qed.

(** X17. A text that is not a number, typed while an amount is awaited
    (an income, an expense or a budget is pending, or a goal is at its
    amount step), changes nothing, in the tracker or in what is pending:
    the bot asks for a valid number and the user can type again. *)
Theorem invalid_number_changes_nothing (user_id text : string)
    (now : datetime) (o : io) (t : tracker) (s : session) :
  float_of text = None ->
  pending_income s <> None \/ pending_expense s <> None
  \/ pending_budget s <> None
  \/ (exists draft,
        pending_goal s = Some draft /\ draft_step draft = "amount") ->
  typed user_id text now o t s = (t, s, [invalid_number]).
Proof.
  intros Hf H. unfold handle_message. rewrite Hf.
  destruct (pending_income s); [reflexivity|].
  destruct (pending_expense s); [reflexivity|].
  destruct (pending_budget s); [reflexivity|].
  destruct H as [H|[H|[H|(draft & Hd & Hstep)]]]; try contradiction.
  now rewrite Hd, Hstep.
Qed.

(** X18. When the save of a typed income fails, the bot reports an error
    and the income stays pending, but the transaction is already in the
    in-memory log: typing the amount again, with a save that succeeds,
    records it a second time and counts it twice in the balance. *)
Theorem retry_after_failed_save_records_twice (user_id category text : string)
    (amount : Q) (now1 now2 : datetime) (o : io) (t : tracker)
    (s : session) :
  pending_income s = Some category ->
  float_of text = Some amount ->
  o <> WriteOk ->
  let first := typed user_id text now1 o t s in
  let second :=
    typed user_id text now2 WriteOk (fst (fst first)) (snd (fst first)) in
  snd (fst first) = s
  /\ snd first = [say ("❌ An error occurred: " ++ str_exn OSError)]
  /\ map t_amount (recorded user_id (fst (fst second)))
     = (map t_amount (recorded user_id t) ++ [amount; amount])%list
  /\ balance user_id (fst (fst second))
     = balance user_id t + amount + amount
  /\ pending_income (snd (fst second)) = None.
Proof.
  intros Hp Hf Ho first second. subst second first.
  rewrite (handle_message_income fmt2 capitalize float_of str_exn user_id
             text category amount now1 o t s Hp Hf).
  cbn [fst snd].
  assert (Hs : match o with
               | WriteOk =>
                   {| pending_income := None;
                      pending_expense := pending_expense s;
                      pending_budget := pending_budget s;
                      pending_goal := pending_goal s |}
               | _ => s
               end = s) by (destruct o; [contradiction | | ]; reflexivity).
  rewrite Hs.
  rewrite (handle_message_income fmt2 capitalize float_of str_exn user_id
             text category amount now2 WriteOk _ s Hp Hf).
  cbn [fst snd]. rewrite !add_recorded, !add_balance. cbn [String.eqb].
  split; [reflexivity|]. split; [now destruct o|].
  split; [|split; reflexivity].
  rewrite !map_app, <- app_assoc. reflexivity.
Qed.

(** X19. Pressing a button does not cancel what was pending: after an
    income button and then an expense button both are pending, the next
    number typed is recorded as the income, and the number after it as the
    expense. *)
Theorem income_is_served_before_expense
    (user_id income_category expense_category text1 text2 : string)
    (amount1 amount2 : Q) (now : datetime) (t : tracker) (s : session) :
  contains income_category "income_" = false ->
  contains expense_category "expense_" = false ->
  float_of text1 = Some amount1 ->
  float_of text2 = Some amount2 ->
  let b1 := button_handler user_id ("income_" ++ income_category) t s in
  let b2 :=
    button_handler user_id ("expense_" ++ expense_category)
      (fst (fst b1)) (snd (fst b1)) in
  let m1 := typed user_id text1 now WriteOk (fst (fst b2)) (snd (fst b2)) in
  let m2 := typed user_id text2 now WriteOk (fst (fst m1)) (snd (fst m1)) in
  pending_income (snd (fst b2)) = Some income_category
  /\ pending_expense (snd (fst b2)) = Some expense_category
  /\ map (fun x => (t_type x, t_category x, t_amount x))
       (recorded user_id (fst (fst m2)))
     = (map (fun x => (t_type x, t_category x, t_amount x))
          (recorded user_id t)
        ++ [("income", income_category, amount1);
            ("expense", expense_category, amount2)])%list
  /\ pending_income (snd (fst m2)) = None
  /\ pending_expense (snd (fst m2)) = None.
Proof.
  intros Hi He H1 H2 b1 b2 m1 m2. subst m2 m1 b2 b1.
  rewrite button_handler_income by exact Hi. cbn [fst snd].
  rewrite button_handler_expense by exact He.
  cbn [fst snd pending_income pending_expense pending_budget pending_goal].
  rewrite (handle_message_income fmt2 capitalize float_of str_exn user_id
             text1 income_category amount1 now WriteOk t)
    by (reflexivity || exact H1).
  cbn [fst snd pending_income pending_expense pending_budget pending_goal].
  rewrite (handle_message_expense fmt2 capitalize float_of str_exn user_id
             text2 expense_category amount2 now WriteOk)
    by (reflexivity || exact H2).
  cbn [fst snd pending_income pending_expense pending_budget pending_goal].
  rewrite !add_recorded, !map_app, <- app_assoc.
  repeat split.
Qed.

Lemma handle_message_goal_name (user_id text : string) (now : datetime)
    (o : io) (t : tracker) (s : session) (draft : goal_draft) :
  pending_income s = None ->
  pending_expense s = None ->
  pending_budget s = None ->
  pending_goal s = Some draft ->
  draft_step draft = "name" ->
  typed user_id text now o t s
  = (t,
     {| pending_income := None;
        pending_expense := None;
        pending_budget := None;
        pending_goal :=
          Some {| draft_step := "amount";
                  draft_name := Some text;
                  draft_target_amount := draft_target_amount draft |} |},
     [say "Great! Now enter the target amount:"]).
Proof.
  intros Hi He Hb Hg Hstep. unfold handle_message.
  now rewrite Hi, He, Hb, Hg, Hstep.
Qed.

Lemma handle_message_goal_amount (user_id text : string) (amount : Q)
    (now : datetime) (o : io) (t : tracker) (s : session)
    (draft : goal_draft) :
  pending_income s = None ->
  pending_expense s = None ->
  pending_budget s = None ->
  pending_goal s = Some draft ->
  draft_step draft = "amount" ->
  float_of text = Some amount ->
  typed user_id text now o t s
  = (t,
     {| pending_income := None;
        pending_expense := None;
        pending_budget := None;
        pending_goal :=
          Some {| draft_step := "date";
                  draft_name := draft_name draft;
                  draft_target_amount := Some amount |} |},
     [say "Perfect! Now enter the target date (YYYY-MM-DD):"]).
Proof.
  intros Hi He Hb Hg Hstep Hf. unfold handle_message.
  now rewrite Hi, He, Hb, Hg, Hstep, Hf.
Qed.

Lemma handle_message_goal_date (user_id text name : string) (target : Q)
    (now : datetime) (t : tracker) (s : session) (draft : goal_draft) :
  pending_income s = None ->
  pending_expense s = None ->
  pending_budget s = None ->
  pending_goal s = Some draft ->
  draft_step draft = "date" ->
  draft_name draft = Some name ->
  draft_target_amount draft = Some target ->
  typed user_id text now WriteOk t s
  = (fst (add_savings_goal user_id name target text now WriteOk t),
     mk_session None None None None,
     [say ("✅ Savings goal '" ++ name ++ "' added successfully!")]).
Proof.
  intros Hi He Hb Hg Hstep Hn Ht. unfold handle_message.
  rewrite Hi, He, Hb, Hg, Hstep, Hn, Ht. cbn [String.eqb Ascii.eqb Bool.eqb].
  pose proof (add_savings_goal_result user_id name target text now WriteOk t)
    as Hr.
  destruct (add_savings_goal user_id name target text now WriteOk t)
    as [t' r].
  cbn [fst snd] in *. now subst r.
Qed.

(** X20. With nothing else pending, pressing "add goal" and typing a
    name, a number and a date adds, when the save succeeds, one goal with
    that name and target, nothing saved, and the date exactly as typed
    (any text is taken as the date), and nothing stays pending. *)
Theorem goal_dialogue_adds_the_goal
    (user_id name amount_text date_text : string) (amount : Q)
    (now : datetime) (t : tracker) (s : session) :
  pending_income s = None ->
  pending_expense s = None ->
  pending_budget s = None ->
  float_of amount_text = Some amount ->
  let b := button_handler user_id "add_goal" t s in
  let m1 := typed user_id name now WriteOk (fst (fst b)) (snd (fst b)) in
  let m2 :=
    typed user_id amount_text now WriteOk (fst (fst m1)) (snd (fst m1)) in
  let m3 :=
    typed user_id date_text now WriteOk (fst (fst m2)) (snd (fst m2)) in
  fst (fst m3)
  = fst (add_savings_goal user_id name amount date_text now WriteOk t)
  /\ goals_of user_id (fst (fst m3))
     = (goals_of user_id t ++
        [ {| g_id := Z.of_nat (List.length (goals_of user_id t)) + 1;
             g_name := name;
             g_target_amount := amount;
             g_current_amount := 0;
             g_target_date := date_text;
             g_created_date := date_of now |} ])%list
  /\ snd (fst m3) = mk_session None None None None
  /\ snd m3
     = [say ("✅ Savings goal '" ++ name ++ "' added successfully!")].
Proof.
  intros Hi He Hb Hf b m1 m2 m3.
  assert (Eb : b = (t,
                    {| pending_income := None;
                       pending_expense := None;
                       pending_budget := None;
                       pending_goal :=
                         Some {| draft_step := "name";
                                 draft_name := None;
                                 draft_target_amount := None |} |},
                    [say ("🎯 Let's add a new savings goal!" ++ nl ++ nl
                          ++ "What would you like to call this goal?")])).
  { subst b. unfold button_handler.
    cbn [startswith String.prefix String.eqb Ascii.eqb Bool.eqb].
    now rewrite Hi, He, Hb. }
  subst m3 m2 m1. rewrite Eb. clear Eb b. cbn [fst snd].
  erewrite (handle_message_goal_name user_id name now WriteOk t)
    by reflexivity.
  cbn [fst snd draft_target_amount].
  erewrite (handle_message_goal_amount user_id amount_text amount now
              WriteOk t) by (reflexivity || exact Hf).
  cbn [fst snd draft_name].
  erewrite (handle_message_goal_date user_id date_text name amount now t)
    by reflexivity.
  cbn [fst snd].
  split; [reflexivity|]. split; [|split; reflexivity].
  pose proof (after_account fmt2 fmt2 capitalize capitalize (fun _ => "")
                (Mutate (AddSavingsGoal name amount date_text) WriteOk)
                user_id now t) as Ha.
  cbn [after perform effect] in Ha.
  unfold goals_of at 1. rewrite Ha. cbn [savings_goals].
  now rewrite goals_current.
Qed.

(** X21. The buttons that "update goal" offers, one per goal with the
    data "update_" followed by the goal's id, are handled by no branch:
    pressing one changes nothing and answers nothing, so the saved amount
    of a goal cannot be changed from the chat. *)
Theorem goal_update_buttons_do_nothing (user_id : string) (id : Z)
    (t : tracker) (s : session) :
  button_handler user_id ("update_" ++ string_of_Z id) t s = (t, s, []).
Proof.
  unfold button_handler.
  replace (startswith ("update_" ++ string_of_Z id) "income_") with false
    by reflexivity.
  replace (startswith ("update_" ++ string_of_Z id) "expense_") with false
    by reflexivity.
  replace (startswith ("update_" ++ string_of_Z id) "budget_") with false
    by reflexivity.
  replace (String.eqb ("update_" ++ string_of_Z id) "add_goal") with false
    by reflexivity.
  destruct (String.eqb_spec ("update_" ++ string_of_Z id) "update_goal")
    as [E|_]; [|reflexivity].
  exfalso. apply (string_of_Z_not_goal id).
  cbn in E. now injection E.
Qed.

End Conversations.

(** ** Any conversation *)

Section AnyConversation.

Variable fmt2 : Q -> string.
Variable fmt1 : Q -> string.
Variable capitalize : string -> string.
Variable title : string -> string.
Variable strftime : datetime -> string.
Variable float_of : string -> option Q.
Variable str_exn : exn -> string.

Abbreviation engine_call := (after fmt2 fmt1 capitalize title strftime).

Lemma button_handler_tracker (user_id data : string) (now : datetime)
    (t : tracker) (s : session) :
  fst (fst (button_handler user_id data t s)) = t
  \/ fst (fst (button_handler user_id data t s))
     = engine_call (Ask Goals) user_id now t.
Proof.
  unfold button_handler.
  destruct (startswith data "income_"); [now left|].
  destruct (startswith data "expense_"); [now left|].
  destruct (startswith data "budget_"); [now left|].
  destruct (String.eqb data "add_goal"); [now left|].
  destruct (String.eqb data "update_goal"); [|now left].
  right. cbn [after]. rewrite ask_is_get_user_data.
  destruct (get_user_data user_id t) as [t1 user_data].
  now destruct (savings_goals user_data).
Qed.

Lemma handle_message_tracker (user_id text : string) (now : datetime)
    (o : io) (t : tracker) (s : session) :
  fst (fst (handle_message fmt2 capitalize float_of str_exn user_id text
              now o t s)) = t
  \/ exists m,
       fst (fst (handle_message fmt2 capitalize float_of str_exn user_id
                   text now o t s))
       = engine_call (Mutate m o) user_id now t.
Proof.
  unfold handle_message.
  destruct (pending_income s) as [category|].
  { destruct (float_of text) as [amount|]; [|now left].
    right. exists (AddTransaction amount category "income" "").
    cbn [after perform].
    destruct (add_transaction fmt2 capitalize user_id amount category
                "income" "" now o t) as [t' [r|e]]; reflexivity. }
  destruct (pending_expense s) as [category|].
  { destruct (float_of text) as [amount|]; [|now left].
    right. exists (AddTransaction amount category "expense" "").
    cbn [after perform].
    destruct (add_transaction fmt2 capitalize user_id amount category
                "expense" "" now o t) as [t' [r|e]]; reflexivity. }
  destruct (pending_budget s) as [category|].
  { destruct (float_of text) as [amount|]; [|now left].
    right. exists (SetBudget category amount).
    cbn [after perform].
    destruct (set_budget fmt2 user_id category amount now o t)
      as [t' [r|e]]; reflexivity. }
  destruct (pending_goal s) as [draft|]; [|now left].
  destruct (String.eqb (draft_step draft) "name"); [now left|].
  destruct (String.eqb (draft_step draft) "amount").
  { destruct (float_of text); now left. }
  destruct (String.eqb (draft_step draft) "date"); [|now left].
  destruct (draft_name draft) as [name|]; [|now left].
  destruct (draft_target_amount draft) as [target|]; [|now left].
  right. exists (AddSavingsGoal name target text).
  cbn [after perform].
  destruct (add_savings_goal user_id name target text now o t)
    as [t' [r|e]]; reflexivity.
Qed.

Lemma chat_step_tracker (c : chat) (e : event) :
  c_tracker (chat_step fmt2 fmt1 capitalize title strftime float_of str_exn
               c e) = c_tracker c
  \/ exists call,
       c_tracker (chat_step fmt2 fmt1 capitalize title strftime float_of
                    str_exn c e)
       = engine_call call (ev_user e) (ev_now e) (c_tracker c).
Proof.
  unfold chat_step.
  destruct (ev_update e) as [| | | | | | | |data|text]; try (now left).
  - right. exists (Ask (Summary "current_month")).
    cbn [c_tracker after ask]. unfold show_summary.
    now destruct (get_financial_summary fmt2 (ev_user e) "current_month"
                    (ev_now e) (c_tracker c)).
  - right. exists (Ask (Transactions 10)).
    cbn [c_tracker after ask]. unfold show_transactions.
    now destruct (view_transactions fmt2 title strftime (ev_user e) 10
                    (c_tracker c)).
  - right. exists (Ask Goals).
    cbn [c_tracker after ask]. unfold show_goals.
    now destruct (view_savings_goals fmt2 fmt1 (ev_user e) (c_tracker c)).
  - cbn [c_tracker].
    destruct (button_handler_tracker (ev_user e) data (ev_now e)
                (c_tracker c)
                (Dict.get_default (ev_user e) no_session (c_sessions c)))
      as [H|H]; [now left | right; now exists (Ask Goals)].
  - cbn [c_tracker].
    destruct (handle_message_tracker (ev_user e) text (ev_now e) (ev_io e)
                (c_tracker c)
                (Dict.get_default (ev_user e) no_session (c_sessions c)))
      as [H|[m H]]; [now left | right; now exists (Mutate m (ev_io e))].
Qed.

Lemma chat_run_reached (events : list event) (c : chat) :
  (exists steps,
     c_tracker c = reached fmt2 fmt1 capitalize title strftime steps) ->
  exists steps,
    c_tracker (chat_run fmt2 fmt1 capitalize title strftime float_of str_exn
                 events c)
    = reached fmt2 fmt1 capitalize title strftime steps.
Proof.
  revert c. unfold chat_run.
  induction events as [|e events IH]; intros c H; cbn [fold_left];
    [exact H|].
  apply IH. destruct H as [steps Hs].
  destruct (chat_step_tracker c e) as [E|[call E]]; rewrite E.
  - now exists steps.
  - exists (steps ++ [mk_step call (ev_user e) (ev_now e)])%list.
    rewrite Hs. unfold reached, run. now rewrite fold_left_app.
Qed.

(** X22. Whatever the users do in the chat (commands, buttons, texts, in
    any order, with any save outcomes), the tracker the bot holds is one
    that a run of engine calls reaches; so the transaction ids of every
    user are 1, 2, ..., n, every goal has saved amount 0, and no category
    has two budgets. *)
Theorem conversations_keep_the_ledger_consistent (events : list event)
    (user_id : string) :
  let t :=
    c_tracker (chat_run fmt2 fmt1 capitalize title strftime float_of
                 str_exn events new_chat) in
  (exists steps, t = reached fmt2 fmt1 capitalize title strftime steps)
  /\ map t_id (recorded user_id t)
     = map Z.of_nat (seq 1 (List.length (recorded user_id t)))
  /\ Forall (fun g => g_current_amount g = 0) (goals_of user_id t)
  /\ NoDup (map fst (budgets_of user_id t)).
Proof.
  intros t.
  destruct (chat_run_reached events new_chat) as [steps Hs];
    [now exists [] |].
  fold t in Hs. split; [now exists steps|].
  pose proof (reached_current_ok fmt2 fmt1 capitalize title strftime steps
                user_id) as [Hids _ Hzero Hkeys].
  rewrite <- Hs in *.
  rewrite recorded_current, goals_current, budgets_current.
  split; [|split; assumption].
  unfold ids_from_one in Hids. now rewrite length_map in Hids.
Qed.

End AnyConversation.

(** ** Runs for the properties above *)

Lemma goals_are_never_funded_witness :
  In car_goal
    (goals_of "u1" (reached no_fmt no_fmt as_is as_is no_date [goal_step]))
  /\ g_current_amount car_goal = 0.
Proof.
  assert (H : In car_goal
                (goals_of "u1"
                   (reached no_fmt no_fmt as_is as_is no_date [goal_step])))
    by (left; reflexivity).
  split; [exact H|].
  apply (goals_are_never_funded no_fmt no_fmt as_is as_is no_date
           [goal_step] "u1" car_goal H).
Defined.

Lemma set_budget_twice_keeps_the_last_witness :
  NoDup (map fst (budgets_of "u1" empty_tracker))
  /\ Dict.get "Food"
       (budgets_of "u1"
          (fst (set_budget no_fmt "u1" "Food" 80 last_day_noon WriteOk
                  (fst (set_budget no_fmt "u1" "Food" 100 mid_month
                          WriteInterrupted empty_tracker)))))
     = Some {| b_amount := 80; b_set_date := date_of last_day_noon |}.
Proof.
  assert (H : NoDup (map fst (budgets_of "u1" empty_tracker)))
    by constructor.
  split; [exact H|].
  apply (set_budget_twice_keeps_the_last no_fmt "u1" "Food" 100 80
           mid_month last_day_noon WriteInterrupted WriteOk empty_tracker H).
Defined.

Lemma asking_changes_nothing_for_a_known_user_witness :
  account_of "u1" five_transactions <> None
  /\ ask no_fmt no_fmt as_is no_date (Summary "all_time") "u1" mid_month
       five_transactions
     = five_transactions.
Proof.
  assert (H : account_of "u1" five_transactions <> None)
    by (vm_compute; discriminate).
  split; [exact H|].
  apply (asking_changes_nothing_for_a_known_user no_fmt no_fmt as_is no_date
           (Summary "all_time") "u1" mid_month five_transactions H).
Defined.

Lemma current_month_range_witness :
  valid_datetime last_day_noon = true
  /\ period_range "current_month" last_day_noon
     = Return (mk_datetime 2024 1 1 0 0 0, mk_datetime 2024 1 31 0 0 0).
Proof.
  assert (H : valid_datetime last_day_noon = true) by reflexivity.
  split; [exact H|].
  apply (proj2 (current_month_range last_day_noon H)).
  vm_compute. intros [E _]. discriminate E.
Defined.

Lemma last_month_range_witness :
  valid_datetime mid_month = true
  /\ period_range "last_month" mid_month
     = Return (mk_datetime 2023 12 1 0 0 0, mk_datetime 2023 12 31 0 0 0).
Proof.
  assert (H : valid_datetime mid_month = true) by reflexivity.
  split; [exact H|].
  apply (proj2 (last_month_range mid_month H)).
  vm_compute. intros [_ E]. discriminate E.
Defined.

Lemma current_month_leaves_out_the_last_day_witness :
  exists range,
    period_range "current_month" last_day_noon = Return range
    /\ (in_range range
          (mk_transaction 1 last_day_noon 1000 "Salary" "income" "") = true
        <-> (31 < days_in_month 2024 1)%Z
            \/ (12 = 0 /\ 0 = 0 /\ 0 = 0)%Z).
Proof.
  apply (current_month_leaves_out_the_last_day last_day_noon
           (mk_transaction 1 last_day_noon 1000 "Salary" "income" "")).
  - reflexivity.
  - reflexivity.
  - vm_compute. intros [E _]. discriminate E.
  - reflexivity.
  - reflexivity.
Defined.

Lemma view_transactions_negative_limit_witness :
  (-5 < 0)%Z
  /\ snd (view_transactions no_fmt as_is no_date "u1" (-5) five_transactions)
     = "No transactions found.".
Proof.
  assert (H : (-5 < 0)%Z) by lia.
  split; [exact H|].
  apply (proj1 (view_transactions_negative_limit no_fmt as_is no_date "u1"
                  (-5) five_transactions H)).
  vm_compute. discriminate.
Defined.


Lemma typed_income_is_recorded_witness :
  balance "u1"
    (fst (fst (handle_message no_fmt as_is read_number no_message "u1"
                 "12.5" mid_month WriteOk
                 (fst (fst (button_handler "u1" "income_Salary"
                              empty_tracker no_session)))
                 (snd (fst (button_handler "u1" "income_Salary"
                              empty_tracker no_session))))))
  = balance "u1" empty_tracker + (25 # 2).
Proof.
  apply (typed_income_is_recorded no_fmt as_is read_number no_message "u1"
           "Salary" "12.5" (25 # 2) mid_month empty_tracker no_session).
  - reflexivity.
  - reflexivity.
Defined.

Lemma invalid_number_changes_nothing_witness :
  handle_message no_fmt as_is read_number no_message "u1" "a lot" mid_month
    WriteOk empty_tracker awaiting_income
  = (empty_tracker, awaiting_income, [invalid_number]).
Proof.
  apply (invalid_number_changes_nothing no_fmt as_is read_number no_message
           "u1" "a lot" mid_month WriteOk empty_tracker awaiting_income).
  - reflexivity.
  - left. discriminate.
Defined.

Lemma retry_after_failed_save_records_twice_witness :
  map t_amount
    (recorded "u1"
       (fst (fst (handle_message no_fmt as_is read_number no_message "u1"
                    "1000" mid_month WriteOk
                    (fst (fst (handle_message no_fmt as_is read_number
                                 no_message "u1" "1000" mid_month
                                 WriteInterrupted empty_tracker
                                 awaiting_income)))
                    (snd (fst (handle_message no_fmt as_is read_number
                                 no_message "u1" "1000" mid_month
                                 WriteInterrupted empty_tracker
                                 awaiting_income)))))))
  = (map t_amount (recorded "u1" empty_tracker) ++ [1000; 1000])%list.
Proof.
  apply (retry_after_failed_save_records_twice no_fmt as_is read_number
           no_message "u1" "Salary" "1000" 1000 mid_month mid_month
           WriteInterrupted empty_tracker awaiting_income).
  - reflexivity.
  - reflexivity.
  - discriminate.
Defined.

Lemma income_is_served_before_expense_witness :
  contains "Salary" "income_" = false
  /\ contains "Food" "expense_" = false
  /\ read_number "1000" = Some 1000
  /\ read_number "12.5" = Some (25 # 2)
  /\ pending_income
       (snd (fst (button_handler "u1" "expense_Food"
                    (fst (fst (button_handler "u1" "income_Salary"
                                 empty_tracker no_session)))
                    (snd (fst (button_handler "u1" "income_Salary"
                                 empty_tracker no_session))))))
     = Some "Salary".
Proof.
  assert (H1 : contains "Salary" "income_" = false) by reflexivity.
  assert (H2 : contains "Food" "expense_" = false) by reflexivity.
  assert (H3 : read_number "1000" = Some 1000) by reflexivity.
  assert (H4 : read_number "12.5" = Some (25 # 2)) by reflexivity.
  split; [exact H1|]. split; [exact H2|]. split; [exact H3|].
  split; [exact H4|].
  apply (income_is_served_before_expense no_fmt as_is read_number no_message
           "u1" "Salary" "Food" "1000" "12.5" 1000 (25 # 2) mid_month
           empty_tracker no_session H1 H2 H3 H4).
Defined.

Lemma goal_dialogue_adds_the_goal_witness :
  goals_of "u1"
    (fst (add_savings_goal "u1" "Car" 1000 "next year" mid_month WriteOk
            empty_tracker))
  = [ {| g_id := 1;
         g_name := "Car";
         g_target_amount := 1000;
         g_current_amount := 0;
         g_target_date := "next year";
         g_created_date := date_of mid_month |} ].
Proof.
  pose proof (goal_dialogue_adds_the_goal no_fmt as_is read_number no_message
                "u1" "Car" "1000" "next year" 1000 mid_month empty_tracker
                no_session eq_refl eq_refl eq_refl eq_refl) as H.
  cbv zeta in H. destruct H as (Ht & Hg & _).
  rewrite <- Ht. exact Hg.
Defined.
